(** * The legacy XML-RPC gateway of warehouse: [warehouse/legacy/api/xmlrpc/views.py]

    A shallow embedding of the view module and the properties its
    specification states about it.  Python text is a list of Unicode code
    points; the services a view finds on the request (rate limiter, metrics,
    database session) are threaded through the views as an explicit world,
    and a raised exception is an outcome of the computation. *)

From Stdlib Require Import List ZArith NArith Bool Lia String Ascii.
From Stdlib Require Import QArith.QArith_base QArith.Qround.
From Stdlib Require Import Sorting.Sorted Sorting.Permutation.
Import ListNotations.

Set Warnings "-register-all".
Close Scope Q_scope.

Set Implicit Arguments.

(** ** Python text *)

(** A Python [str]: its code points, in order. *)
Definition pystr := list N.

(** A source literal; every literal of the module is ASCII. *)
Definition lit (s : string) : pystr :=
  map N_of_ascii (list_ascii_of_string s).

Fixpoint digits (d : Decimal.uint) : pystr :=
  match d with
  | Decimal.Nil => []
  | Decimal.D0 d => 48%N :: digits d
  | Decimal.D1 d => 49%N :: digits d
  | Decimal.D2 d => 50%N :: digits d
  | Decimal.D3 d => 51%N :: digits d
  | Decimal.D4 d => 52%N :: digits d
  | Decimal.D5 d => 53%N :: digits d
  | Decimal.D6 d => 54%N :: digits d
  | Decimal.D7 d => 55%N :: digits d
  | Decimal.D8 d => 56%N :: digits d
  | Decimal.D9 d => 57%N :: digits d
  end.

(** [str(n)] of a natural number and of an integer. *)
Definition str_of_N (n : N) : pystr := digits (N.to_uint n).

Definition str_of_Z (z : Z) : pystr :=
  if (z <? 0)%Z then 45%N :: str_of_N (Z.abs_N z) else str_of_N (Z.to_N z).

(** [sep.join(parts)]. *)
Fixpoint join (sep : pystr) (parts : list pystr) : pystr :=
  match parts with
  | [] => []
  | [p] => p
  | p :: rest => p ++ sep ++ join sep rest
  end.

Fixpoint pystr_eqb (a b : pystr) : bool :=
  match a, b with
  | [], [] => true
  | x :: a', y :: b' => N.eqb x y && pystr_eqb a' b'
  | _, _ => false
  end.

Fixpoint starts_withb (hay prefix : pystr) {struct prefix} : bool :=
  match prefix, hay with
  | [], _ => true
  | p :: prefix', h :: hay' => N.eqb p h && starts_withb hay' prefix'
  | _ :: _, [] => false
  end.

(** [needle in hay], computed. *)
Fixpoint containsb (hay needle : pystr) : bool :=
  starts_withb hay needle ||
  match hay with
  | [] => false
  | _ :: hay' => containsb hay' needle
  end.

(** [needle in hay] and [hay.endswith(suffix)] as propositions. *)
Definition contains (hay needle : pystr) : Prop :=
  exists pre post, hay = pre ++ needle ++ post.

Definition ends_with (hay suffix : pystr) : Prop :=
  exists pre, hay = pre ++ suffix.

Definition is_ascii (c : N) : Prop := (c < 128)%N.

(** ** The sanitizer *)

Module Sanitizer.

Open Scope N_scope.

Definition _illegal_ranges : list (N * N) :=
  [ (0x00, 0x08);
    (0x0b, 0x0c);
    (0x0e, 0x1f);
    (0x7f, 0x84);
    (0x86, 0x9f);
    (0xfdd0, 0xfddf);
    (0xfffe, 0xffff);
    (0x1fffe, 0x1ffff);
    (0x2fffe, 0x2ffff);
    (0x3fffe, 0x3ffff);
    (0x4fffe, 0x4ffff);
    (0x5fffe, 0x5ffff);
    (0x6fffe, 0x6ffff);
    (0x7fffe, 0x7ffff);
    (0x8fffe, 0x8ffff);
    (0x9fffe, 0x9ffff);
    (0xafffe, 0xaffff);
    (0xbfffe, 0xbffff);
    (0xcfffe, 0xcffff);
    (0xdfffe, 0xdffff);
    (0xefffe, 0xeffff);
    (0xffffe, 0xfffff);
    (0x10fffe, 0x10ffff) ].

(** The character class ["[%s]" % "".join(_illegal_ranges)]: does the
    pattern match the code point? *)
Definition _illegal_xml_chars_re (c : N) : bool :=
  existsb (fun r => (fst r <=? c) && (c <=? snd r)) _illegal_ranges.

(** [_illegal_xml_chars_re.sub("", data)]: every match is one code point,
    and it is dropped. *)
Definition re_sub_empty (data : pystr) : pystr :=
  filter (fun c => negb (_illegal_xml_chars_re c)) data.

(** [data.encode("ascii", "xmlcharrefreplace").decode("ascii")]: a code
    point the ASCII codec cannot encode becomes its decimal character
    reference. *)
Definition xmlcharrefreplace (c : N) : pystr :=
  if c <? 128 then [c] else lit "&#" ++ str_of_N c ++ lit ";".

Definition encode_ascii (data : pystr) : pystr :=
  flat_map xmlcharrefreplace data.

(** [data] is [None] or a [str]; [if data:] is false on both [None] and
    the empty string. *)
Definition _clean_for_xml (data : option pystr) : option pystr :=
  match data with
  | Some ((_ :: _) as s) => Some (re_sub_empty (encode_ascii s))
  | _ => data
  end.

End Sanitizer.

(** ** Values, exceptions and faults *)

(** The values that cross the RPC boundary. *)
Inductive PyVal :=
| VNone
| VBool (b : bool)
| VInt (z : Z)
| VStr (s : pystr)
| VList (l : list PyVal)
| VTuple (l : list PyVal)
| VDict (items : list (pystr * PyVal)).

(** An exception object, as far as the module looks at one: its
    [__class__.__name__] and its [str()]. *)
Record Exception := {
  exc_class_name : pystr;
  exc_str : pystr
}.

Definition RuntimeError (msg : pystr) : Exception :=
  {| exc_class_name := lit "RuntimeError"; exc_str := msg |}.

Definition ValueError (msg : pystr) : Exception :=
  {| exc_class_name := lit "ValueError"; exc_str := msg |}.

Definition TypeError (msg : pystr) : Exception :=
  {| exc_class_name := lit "TypeError"; exc_str := msg |}.

(** pyramid renders an HTTP exception built with a non-empty detail as that
    detail. *)
Definition HTTPTooManyRequests (detail : pystr) : Exception :=
  {| exc_class_name := lit "HTTPTooManyRequests"; exc_str := detail |}.

Definition MultipleResultsFound : Exception :=
  {| exc_class_name := lit "MultipleResultsFound";
     exc_str := lit "Multiple rows were found when exactly one was required" |}.

(** The three fault classes the module declares. *)
Inductive Fault :=
| XMLRPCServiceUnavailable
| XMLRPCInvalidParamTypes (exc : pystr)
| XMLRPCWrappedError (wrapped_exception : Exception).

(** [XMLRPCInvalidParamTypes] sets no code of its own: it inherits the class
    attribute of pyramid_rpc's [XmlRpcInvalidMethodParams], the XML-RPC
    fault code for invalid method parameters. *)
Definition XmlRpcInvalidMethodParams_faultCode : Z := (-32602)%Z.

Definition faultCode (f : Fault) : Z :=
  match f with
  | XMLRPCServiceUnavailable => (-32403)%Z
  | XMLRPCInvalidParamTypes _ => XmlRpcInvalidMethodParams_faultCode
  | XMLRPCWrappedError _ => (-32500)%Z
  end.

Definition faultString (f : Fault) : pystr :=
  match f with
  | XMLRPCServiceUnavailable => lit "server error; service unavailable"
  | XMLRPCInvalidParamTypes exc => lit "client error; " ++ exc
  | XMLRPCWrappedError exc => exc_class_name exc ++ lit ": " ++ exc_str exc
  end.

(** What a [raise] carries: one of the faults above, or any other
    exception. *)
Inductive Raised :=
| RaisedFault (f : Fault)
| RaisedException (e : Exception).

Inductive Outcome (A : Type) :=
| Return (a : A)
| Raise (r : Raised).

Arguments Return {A} a.
Arguments Raise {A} r.

(** ** Durations and points in time *)

(** [datetime.timedelta], normalised as Python keeps it. *)
Record timedelta := {
  days : Z;
  seconds : Z;
  microseconds : Z
}.

Definition total_microseconds (d : timedelta) : Z :=
  ((days d * 86400 + seconds d) * 1000000 + microseconds d)%Z.

(** [d.total_seconds()].  Python returns the quotient as a float; the
    embedding keeps the quotient itself.  The two truncate to the same
    whole number while the duration stays below [exact_seconds_bound]; from
    there on the float of a fraction like .999999 is the next whole
    number. *)
Definition total_seconds (d : timedelta) : Q :=
  Qmake (total_microseconds d) 1000000.

(** Below 2^34 seconds the doubles lie closer together than two
    microseconds, so that rounding a whole number of microseconds to a
    double never reaches the next second. *)
Definition exact_seconds_bound : Z := (2 ^ 34)%Z.

(** A duration whose float of seconds truncates as the quotient does. *)
Definition truncates_exactly (d : timedelta) : Prop :=
  (Z.abs (total_microseconds d) < exact_seconds_bound * 1000000)%Z.

(** [int(x)]: truncation toward zero. *)
Definition int (x : Q) : Z :=
  Z.quot (Qnum x) (Z.pos (Qden x)).

(** A naive UTC [datetime]: microseconds since 1970-01-01T00:00:00. *)
Definition datetime := Z.

(** [dt.replace(tzinfo=datetime.UTC).timestamp()], a float in Python and
    the quotient itself here; they truncate alike below
    [exact_seconds_bound] seconds from the epoch. *)
Definition timestamp (dt : datetime) : Q :=
  Qmake dt 1000000.

(** The seconds Python's [datetime] can represent: years 1 to 9999. *)
Definition min_timestamp : Z := (-62135596800)%Z.
Definition max_timestamp : Z := 253402300799%Z.

(** [datetime.datetime.utcfromtimestamp(since)] for an integer [since];
    outside the representable years it raises.  Python raises a
    [ValueError] naming the year, an [OverflowError] or an [OSError],
    depending on the value and the platform; the embedding keeps one
    exception for all of them. *)
Definition utcfromtimestamp (since : Z) : Exception + datetime :=
  if ((min_timestamp <=? since) && (since <=? max_timestamp))%Z
  then inr (since * 1000000)%Z
  else inl (ValueError (lit "year is out of range")).

(** ** The database rows the views read *)

Record Release := {
  version : pystr;
  home_page : option pystr;
  download_url : option pystr;
  project_urls : list (pystr * pystr);
  author : option pystr;
  author_email : option pystr;
  maintainer : option pystr;
  maintainer_email : option pystr;
  summary : option pystr;
  description_raw : option pystr;
  license : option pystr;
  keywords : option pystr;
  platform : option pystr;
  classifiers : list pystr;
  requires : list pystr;
  requires_dist : list pystr;
  provides : list pystr;
  provides_dist : list pystr;
  obsoletes : list pystr;
  obsoletes_dist : list pystr;
  requires_python : option pystr;
  requires_external : list pystr;
  _pypi_ordering : option Z
}.

Record Project := {
  name : pystr;
  normalized_name : pystr;
  last_serial : Z;
  documentation_url : option pystr;
  all_versions : list Release;
  latest_version : option Release
}.

Record JournalEntry := {
  id : Z;
  entry_name : option pystr;
  entry_version : option pystr;
  submitted_date : datetime;
  action : option pystr
}.

Record Database := {
  projects : list Project;
  journals : list JournalEntry
}.

(** The queries a view can send through [request.db]. *)
Inductive Query :=
| QueryProjectNames
| QueryProjectSerials
| QueryProject (package_name : pystr)
| QueryRelease (package_name version : pystr)
| QueryMaxJournalId
| QueryJournalsSinceSerial (serial : Z)
| QueryJournalsSince (since_dt : datetime).

(** ** The services behind a request *)

(** [IRateLimiter], as far as the module calls it.  [test] answers [true]
    while the caller is within the limit. *)
Class IRateLimiter := {
  limiter_state : Type;
  hit : pystr -> limiter_state -> limiter_state;
  test : pystr -> limiter_state -> bool * limiter_state;
  resets_in : pystr -> limiter_state -> option timedelta * limiter_state
}.

Inductive LimiterCall :=
| CallHit (identifier : pystr)
| CallTest (identifier : pystr)
| CallResetsIn (identifier : pystr).

(** [IMetricsService]: the calls the module makes on it. *)
Inductive MetricsCall :=
| Increment (metric : pystr) (tags : list pystr)
| Timed (metric : pystr) (tags : list pystr).

Record Request := {
  remote_addr : pystr;
  rpc_args : list PyVal;
  domain : pystr;
  settings : list (pystr * pystr);
  route_url : pystr -> list (pystr * pystr) -> pystr
}.

(** [request.registry.settings.get(key, default)]. *)
Fixpoint settings_get (s : list (pystr * pystr)) (key default : pystr) : pystr :=
  match s with
  | [] => default
  | (k, v) :: rest => if pystr_eqb k key then v else settings_get rest key default
  end.

(** ** Declared parameters and the libraries behind the mapper *)

(** The annotations the handlers use. *)
Inductive Annotation :=
| Any
| StrictStr
| StrictInt
| StrictBool
| NoneType
| Union (alternatives : list Annotation)
| ListOf (item : Annotation)
| MappingOf (key value : Annotation).

(** One parameter of a handler after [request]. *)
Record Param := {
  param_name : pystr;
  annotation : Annotation;
  default : option PyVal
}.

(** One entry of pydantic's [ValidationError.errors()]. *)
Inductive LocItem :=
| LocName (s : pystr)
| LocIndex (i : Z).

Record ErrorDict := {
  loc : list LocItem;
  msg : pystr
}.

(** pydantic, as the mapper uses it: [ValidatedFunction(fn, None)],
    [build_values(args, kwargs)] and [model( **values)] either pass or raise
    one [ValidationError]; [validation_errors] is its [errors()], empty when
    nothing is raised.  The arguments are the ones after [request]. *)
Class Pydantic := {
  validation_errors :
    list Param -> list PyVal -> list (pystr * PyVal) -> list ErrorDict
}.

(** [repr()] of a [str], a Python builtin. *)
Class Builtins := {
  repr_str : pystr -> pystr
}.

(** [func.normalize_pep426_name], a function of the database. *)
Class SqlFunctions := {
  normalize_pep426_name : pystr -> pystr
}.

Definition repr_loc_item `{Builtins} (i : LocItem) : pystr :=
  match i with
  | LocName s => repr_str s
  | LocIndex z => str_of_Z z
  end.

(** [f"{loc}"] of a tuple. *)
Definition format_loc `{Builtins} (l : list LocItem) : pystr :=
  match l with
  | [] => lit "()"
  | [i] => lit "(" ++ repr_loc_item i ++ lit ",)"
  | _ => lit "(" ++ join (lit ", ") (map repr_loc_item l) ++ lit ")"
  end.

(** [f"{e['loc']}: {e['msg']}"]. *)
Definition render_violation `{Builtins} (e : ErrorDict) : pystr :=
  format_loc (loc e) ++ lit ": " ++ msg e.

(** ** The world a view runs in *)

Section Gateway.

Context {RL : IRateLimiter} {PD : Pydantic} {PB : Builtins} {SF : SqlFunctions}.

Record World := {
  limiter : limiter_state;
  limiter_calls : list LimiterCall;
  metrics_calls : list MetricsCall;
  db : Database;
  db_queries : list Query
}.

(** A computation: it reads and updates the world and returns or raises. *)
Definition M (A : Type) : Type := World -> Outcome A * World.

Definition ret {A} (a : A) : M A := fun w => (Return a, w).

Definition raise {A} (r : Raised) : M A := fun w => (Raise r, w).

Definition bind {A B} (m : M A) (k : A -> M B) : M B :=
  fun w =>
    match m w with
    | (Return a, w') => k a w'
    | (Raise r, w') => (Raise r, w')
    end.

Local Notation "x <- c1 ;; c2" := (bind c1 (fun x => c2))
  (at level 100, c1 at next level, right associativity).
Local Notation "c1 ;;; c2" := (bind c1 (fun _ => c2))
  (at level 100, right associativity).

(** [try: m  except NoResultFound: handler]. *)
Definition NoResultFound : Exception :=
  {| exc_class_name := lit "NoResultFound";
     exc_str := lit "No row was found when one was required" |}.

Definition is_NoResultFound (r : Raised) : bool :=
  match r with
  | RaisedException e => pystr_eqb (exc_class_name e) (lit "NoResultFound")
  | RaisedFault _ => false
  end.

Definition try_except_NoResultFound {A} (m : M A) (handler : M A) : M A :=
  fun w =>
    match m w with
    | (Raise r, w') => if is_NoResultFound r then handler w' else (Raise r, w')
    | res => res
    end.

(** *** The rate limiter service *)

Definition ratelimiter_hit (identifier : pystr) : M unit :=
  fun w =>
    (Return tt,
     {| limiter := hit identifier (limiter w);
        limiter_calls := limiter_calls w ++ [CallHit identifier];
        metrics_calls := metrics_calls w;
        db := db w;
        db_queries := db_queries w |}).

Definition ratelimiter_test (identifier : pystr) : M bool :=
  fun w =>
    let (answer, l) := test identifier (limiter w) in
    (Return answer,
     {| limiter := l;
        limiter_calls := limiter_calls w ++ [CallTest identifier];
        metrics_calls := metrics_calls w;
        db := db w;
        db_queries := db_queries w |}).

Definition ratelimiter_resets_in (identifier : pystr) : M (option timedelta) :=
  fun w =>
    let (answer, l) := resets_in identifier (limiter w) in
    (Return answer,
     {| limiter := l;
        limiter_calls := limiter_calls w ++ [CallResetsIn identifier];
        metrics_calls := metrics_calls w;
        db := db w;
        db_queries := db_queries w |}).

(** *** The metrics service *)

Definition record_metric (c : MetricsCall) (w : World) : World :=
  {| limiter := limiter w;
     limiter_calls := limiter_calls w;
     metrics_calls := metrics_calls w ++ [c];
     db := db w;
     db_queries := db_queries w |}.

Definition metrics_increment (metric : pystr) (tags : list pystr) : M unit :=
  fun w => (Return tt, record_metric (Increment metric tags) w).

(** [with metrics.timed(metric, tags): body]; the timing is sent when the
    block is left, by a return or by an exception. *)
Definition metrics_timed {A} (metric : pystr) (tags : list pystr) (body : M A) : M A :=
  fun w =>
    let (o, w') := body w in
    (o, record_metric (Timed metric tags) w').

(** *** The database session *)

(** [request.db.query(...)]: the query is sent and the tables are read. *)
Definition db_query (q : Query) : M Database :=
  fun w =>
    (Return (db w),
     {| limiter := limiter w;
        limiter_calls := limiter_calls w;
        metrics_calls := metrics_calls w;
        db := db w;
        db_queries := db_queries w ++ [q] |}).

(** [Query.one()]. *)
Definition one {A} (rows : list A) : M A :=
  match rows with
  | [] => raise (RaisedException NoResultFound)
  | [row] => ret row
  | _ => raise (RaisedException MultipleResultsFound)
  end.

(** ** The decorators *)

(** A view takes [(context, request)]. *)
Definition View : Type := PyVal -> Request -> M PyVal.

Definition submit_xmlrpc_metrics (method : pystr) (f : View) : View :=
  fun context request =>
    metrics_increment (lit "warehouse.xmlrpc.call") [lit "rpc_method:" ++ method] ;;;
    metrics_timed (lit "warehouse.xmlrpc.timing") [lit "rpc_method:" ++ method]
      (f context request).

Definition too_many_requests_message : pystr :=
  lit "The action could not be performed because there were too "
  ++ lit "many requests by the client.".

Definition ratelimit (f : View) : View :=
  fun context request =>
    ratelimiter_hit (remote_addr request) ;;;
    within_limit <- ratelimiter_test (remote_addr request) ;;
    if negb within_limit then
      metrics_increment (lit "warehouse.xmlrpc.ratelimiter.exceeded") [] ;;;
      let message := too_many_requests_message in
      _resets_in <- ratelimiter_resets_in (remote_addr request) ;;
      let message :=
        match _resets_in with
        | Some d =>
            let _resets_in := Z.max 1 (int (total_seconds d)) in
            message ++ lit " Limit may reset in " ++ str_of_Z _resets_in
                    ++ lit " seconds."
        | None => message
        end in
      raise (RaisedFault (XMLRPCWrappedError (HTTPTooManyRequests message)))
    else
      metrics_increment (lit "warehouse.xmlrpc.ratelimiter.hit") [] ;;;
      f context request.

(** ** The typed mapper *)

(** A handler function: its parameters after [request], and its body run on
    one value per parameter. *)
Record Handler := {
  params : list Param;
  call : Request -> list PyVal -> M PyVal
}.

Fixpoint keyword_get (keyword : list (pystr * PyVal)) (key : pystr) : option PyVal :=
  match keyword with
  | [] => None
  | (k, v) :: rest => if pystr_eqb k key then Some v else keyword_get rest key
  end.

(** The loop of pyramid_rpc's [MapplyViewMapper.mapply] over the parameters
    no positional argument covers: the keyword, else the default, else a
    [TypeError]. *)
Fixpoint fill_arguments (names : list Param) (keyword : list (pystr * PyVal))
  : Exception + list PyVal :=
  match names with
  | [] => inr []
  | p :: rest =>
      let v :=
        match keyword_get keyword (param_name p) with
        | Some v => inr v
        | None =>
            match default p with
            | Some d => inr d
            | None => inl (TypeError (lit "argument " ++ param_name p ++ lit " was omitted"))
            end
        end in
      match v with
      | inl e => inl e
      | inr v =>
          match fill_arguments rest keyword with
          | inl e => inl e
          | inr vs => inr (v :: vs)
          end
      end
  end.

(** [super().mapply(fn, args, kwargs)]. *)
Definition super_mapply (fn : Handler) (request : Request)
    (args : list PyVal) (kwargs : list (pystr * PyVal)) : M PyVal :=
  if (List.length (params fn) <? List.length args)%nat then
    raise (RaisedException (TypeError (lit "too many arguments")))
  else
    match fill_arguments (skipn (List.length args) (params fn)) kwargs with
    | inl e => raise (RaisedException e)
    | inr vs => call fn request (args ++ vs)
    end.

(** [TypedMapplyViewMapper.mapply].  [request] is the first element of the
    Python [args]; it is kept apart here. *)
Definition mapply (fn : Handler) (request : Request)
    (args : list PyVal) (kwargs : list (pystr * PyVal)) : M PyVal :=
  match validation_errors (params fn) args kwargs with
  | [] => super_mapply fn request args kwargs
  | errors =>
      raise (RaisedFault (XMLRPCInvalidParamTypes
        (join (lit "; ") (map render_violation errors))))
  end.

(** The view the mapper makes of a handler: an XML-RPC call carries
    positional parameters only. *)
Definition TypedMapplyViewMapper (fn : Handler) : View :=
  fun _context request => mapply fn request (rpc_args request) [].

(** ** Registration under the three endpoints *)

Definition Mapper : Type := Handler -> View.

(** The keyword arguments of [xmlrpc_method] and of pyramid_rpc's
    [xmlrpc_method]; an argument that is not passed is [None] (or [false],
    or the empty tuple). *)
Record ViewOptions := {
  method : pystr;
  require_csrf : option bool;
  require_methods : option (list pystr);
  decorator : list (View -> View);
  mapper : option Mapper;
  xmlrpc_cache : bool;
  xmlrpc_cache_expires : option Z;
  xmlrpc_cache_tag : option pystr;
  xmlrpc_cache_arg_index : option nat;
  xmlrpc_cache_tag_processor : option (pystr -> pystr)
}.

(** One view registered with the configurator. *)
Record Registration := {
  endpoint : pystr;
  options : ViewOptions;
  handler : Handler
}.

Definition Registry : Type := list Registration.

(** pyramid_rpc's [xmlrpc_method(endpoint=..., **kwargs)]: the decorated
    function is registered under the endpoint and returned as it is. *)
Definition _xmlrpc_method (endpoint : pystr) (kwargs : ViewOptions) (f : Handler)
    (registry : Registry) : Handler * Registry :=
  (f, registry ++ [ {| endpoint := endpoint; options := kwargs; handler := f |} ]).

(** [kwargs.update(require_csrf=False, require_methods=["POST"],
    decorator=(...), mapper=TypedMapplyViewMapper)]. *)
Definition update_defaults (kwargs : ViewOptions) : ViewOptions :=
  {| method := method kwargs;
     require_csrf := Some false;
     require_methods := Some [lit "POST"];
     decorator := [submit_xmlrpc_metrics (method kwargs); ratelimit];
     mapper := Some TypedMapplyViewMapper;
     xmlrpc_cache := xmlrpc_cache kwargs;
     xmlrpc_cache_expires := xmlrpc_cache_expires kwargs;
     xmlrpc_cache_tag := xmlrpc_cache_tag kwargs;
     xmlrpc_cache_arg_index := xmlrpc_cache_arg_index kwargs;
     xmlrpc_cache_tag_processor := xmlrpc_cache_tag_processor kwargs |}.

Definition xmlrpc_method (kwargs : ViewOptions) (f : Handler) (registry : Registry)
  : Handler * Registry :=
  let kwargs := update_defaults kwargs in
  let rpc2 := _xmlrpc_method (lit "xmlrpc.RPC2") kwargs in
  let pypi := _xmlrpc_method (lit "xmlrpc.pypi") kwargs in
  let pypi_slash := _xmlrpc_method (lit "xmlrpc.pypi_slash") kwargs in
  let (f1, registry1) := pypi f registry in
  let (f2, registry2) := pypi_slash f1 registry1 in
  rpc2 f2 registry2.

(** The endpoints [xmlrpc_method] registers a handler under. *)
Definition aliases : list pystr :=
  [lit "xmlrpc.RPC2"; lit "xmlrpc.pypi"; lit "xmlrpc.pypi_slash"].

(** [xmlrpc_method(method=...)]: only the method name is passed. *)
Definition method_only (method : pystr) : ViewOptions :=
  {| method := method;
     require_csrf := None;
     require_methods := None;
     decorator := [];
     mapper := None;
     xmlrpc_cache := false;
     xmlrpc_cache_expires := None;
     xmlrpc_cache_tag := None;
     xmlrpc_cache_arg_index := None;
     xmlrpc_cache_tag_processor := None |}.

(** packaging's [canonicalize_name]: runs of [-], [_] and [.] become one
    [-], and the name is lower-cased.  [lower] is [str.lower()] on ASCII
    letters only: the embedding is exact on ASCII names, which project
    names are. *)
Definition is_separator (c : N) : bool :=
  (N.eqb c 45 || N.eqb c 95 || N.eqb c 46)%N.

Fixpoint collapse_separators (in_run : bool) (s : pystr) : pystr :=
  match s with
  | [] => []
  | c :: rest =>
      if is_separator c then
        if in_run then collapse_separators true rest
        else 45%N :: collapse_separators true rest
      else c :: collapse_separators false rest
  end.

Definition lower (c : N) : N :=
  if (N.leb 65 c && N.leb c 90)%N then (c + 32)%N else c.

Definition canonicalize_name (name : pystr) : pystr :=
  map lower (collapse_separators false name).

Definition cache_by_project_options (method : pystr) : ViewOptions :=
  {| method := method;
     require_csrf := None;
     require_methods := None;
     decorator := [];
     mapper := None;
     xmlrpc_cache := true;
     xmlrpc_cache_expires := Some (48 * 60 * 60)%Z;
     xmlrpc_cache_tag := Some (lit "project/%s");
     xmlrpc_cache_arg_index := Some 0%nat;
     xmlrpc_cache_tag_processor := Some canonicalize_name |}.

Definition cache_all_projects_options (method : pystr) : ViewOptions :=
  {| method := method;
     require_csrf := None;
     require_methods := None;
     decorator := [];
     mapper := None;
     xmlrpc_cache := true;
     xmlrpc_cache_expires := Some (1 * 60 * 60)%Z;
     xmlrpc_cache_tag := Some (lit "all-projects");
     xmlrpc_cache_arg_index := None;
     xmlrpc_cache_tag_processor := None |}.

(** The two [functools.partial] objects, called with [method=...]. *)
Definition xmlrpc_cache_by_project (method : pystr) :=
  xmlrpc_method (cache_by_project_options method).

Definition xmlrpc_cache_all_projects (method : pystr) :=
  xmlrpc_method (cache_all_projects_options method).

(** *** From a registration to the view that serves it *)

(** pyramid wraps the mapped view in the decorators, the first of the tuple
    outermost. *)
Definition derive_view (r : Registration) : option View :=
  match mapper (options r) with
  | Some m => Some (fold_right (fun d v => d v) (m (handler r)) (decorator (options r)))
  | None => None
  end.

(** The view the endpoint's dispatcher finds for a method name. *)
Fixpoint find_view (registry : Registry) (route rpc_method : pystr) : option View :=
  match registry with
  | [] => None
  | r :: rest =>
      if pystr_eqb (endpoint r) route && pystr_eqb (method (options r)) rpc_method
      then derive_view r
      else find_view rest route rpc_method
  end.

(** ** The cache tag of a call *)

Record CacheTag := {
  tag : pystr;
  ttl : Z
}.

Inductive TagSource :=
| FixedTag
| DerivedFromArg (index : nat) (canonicalize : pystr -> pystr).

Record CachePolicy := {
  policy_ttl : Z;
  tag_template : pystr;
  tag_source : TagSource
}.

(** The policy the [xmlrpc_cache_*] options of a registration declare. *)
Definition cachePolicy (o : ViewOptions) : option CachePolicy :=
  if xmlrpc_cache o then
    match xmlrpc_cache_expires o, xmlrpc_cache_tag o with
    | Some expires, Some template =>
        match xmlrpc_cache_arg_index o, xmlrpc_cache_tag_processor o with
        | None, _ =>
            Some {| policy_ttl := expires; tag_template := template;
                    tag_source := FixedTag |}
        | Some i, Some processor =>
            Some {| policy_ttl := expires; tag_template := template;
                    tag_source := DerivedFromArg i processor |}
        | Some _, None => None
        end
    | _, _ => None
    end
  else None.

(** [template % value] for a template with one [%s]. *)
Fixpoint substitute (template value : pystr) : pystr :=
  match template with
  | [] => []
  | c :: rest =>
      match rest with
      | c' :: rest' =>
          if (N.eqb c 37 && N.eqb c' 115)%N then value ++ rest'
          else c :: substitute rest value
      | [] => [c]
      end
  end.

(** Modelled from the spec: the cache tag resolver of section 4.4,
    [resolveTag(spec.cachePolicy, boundArgs) -> CacheTag]; the view deriver
    that reads the [xmlrpc_cache_*] options lives outside this module.  A
    fixed policy gives the fixed string; a derived policy substitutes the
    canonicalized argument of the declared index into the template; the TTL
    is the one the policy declares.  No tag is resolved when the call has no
    text argument at that index. *)
Definition resolveTag (policy : CachePolicy) (boundArgs : list PyVal) : option CacheTag :=
  match tag_source policy with
  | FixedTag => Some {| tag := tag_template policy; ttl := policy_ttl policy |}
  | DerivedFromArg i canonicalize =>
      match nth_error boundArgs i with
      | Some (VStr a) =>
          Some {| tag := substitute (tag_template policy) (canonicalize a);
                  ttl := policy_ttl policy |}
      | _ => None
      end
  end.

(** The tag of a call of a method registered with options [o]. *)
Definition cache_tag_of_call (o : ViewOptions) (boundArgs : list PyVal) : option CacheTag :=
  match cachePolicy o with
  | Some policy => resolveTag policy boundArgs
  | None => None
  end.

(** ** The handlers *)

Definition XMLRPC_DEPRECATION_URL : pystr :=
  lit "https://warehouse.pypa.io/api-reference/xml-rpc.html#deprecated-methods".

Definition opt_str (o : option pystr) : PyVal :=
  match o with
  | Some s => VStr s
  | None => VNone
  end.

Definition opt_int (o : option Z) : PyVal :=
  match o with
  | Some z => VInt z
  | None => VNone
  end.

Definition str_list (l : list pystr) : PyVal := VList (map VStr l).

Definition wrong_arguments {A} : M A :=
  raise (RaisedException (TypeError (lit "wrong arguments"))).

Definition required (n : string) (a : Annotation) : Param :=
  {| param_name := lit n; annotation := a; default := None |}.

Definition optional (n : string) (a : Annotation) (d : PyVal) : Param :=
  {| param_name := lit n; annotation := a; default := Some d |}.

Definition search (request : Request) (spec operator : PyVal) : M PyVal :=
  let domain := settings_get (settings request) (lit "warehouse.domain") (domain request) in
  raise (RaisedFault (XMLRPCWrappedError (RuntimeError
    (lit "PyPI no longer supports 'pip search' (or XML-RPC search). "
     ++ (lit "Please use https://" ++ domain ++ lit "/search (via a browser) instead. ")
     ++ (lit "See " ++ XMLRPC_DEPRECATION_URL ++ lit " for more information."))))).

Definition list_packages (request : Request) : M PyVal :=
  d <- db_query QueryProjectNames ;;
  let names := map name (projects d) in
  ret (VList (map VStr names)).

(** [d[key] = value] on a dict built in order. *)
Fixpoint dict_set (items : list (pystr * PyVal)) (key : pystr) (value : PyVal)
  : list (pystr * PyVal) :=
  match items with
  | [] => [(key, value)]
  | (k, v) :: rest =>
      if pystr_eqb k key then (k, value) :: rest
      else (k, v) :: dict_set rest key value
  end.

Definition list_packages_with_serial (request : Request) : M PyVal :=
  d <- db_query QueryProjectSerials ;;
  let serials := map (fun p => (name p, last_serial p)) (projects d) in
  ret (VDict (fold_left (fun acc serial => dict_set acc (fst serial) (VInt (snd serial)))
                        serials [])).

Definition package_hosting_mode (request : Request) (package_name : pystr) : M PyVal :=
  ret (VStr (lit "pypi-only")).

Definition top_packages (request : Request) (num : PyVal) : M PyVal :=
  raise (RaisedFault (XMLRPCWrappedError (RuntimeError
    (lit "This API has been removed. Use BigQuery instead. "
     ++ (lit "See " ++ XMLRPC_DEPRECATION_URL ++ lit " for more information."))))).

Definition package_releases (request : Request) (package_name : pystr)
    (show_hidden : bool) : M PyVal :=
  found <- try_except_NoResultFound
             (d <- db_query (QueryProject package_name) ;;
              project <- one (filter (fun p => pystr_eqb (normalized_name p)
                                                 (normalize_pep426_name package_name))
                                     (projects d)) ;;
              ret (Some project))
             (ret None) ;;
  match found with
  | None => ret (VList [])
  | Some project =>
      if show_hidden then
        ret (VList (map (fun v => VStr (version v)) (all_versions project)))
      else
        match latest_version project with
        | None => ret (VList [])
        | Some latest => ret (VList [VStr (version latest)])
        end
  end.

Definition package_data (request : Request) (package_name version : PyVal) : M PyVal :=
  raise (RaisedFault (XMLRPCWrappedError (RuntimeError
    (lit "This API has been deprecated. "
     ++ (lit "See " ++ XMLRPC_DEPRECATION_URL ++ lit " for more information."))))).

(** The rows of [Release] joined with [Project]. *)
Definition releases_with_project (d : Database) : list (Project * Release) :=
  flat_map (fun p => map (fun r => (p, r)) (all_versions p)) (projects d).

Definition release_data (request : Request) (package_name version_ : pystr) : M PyVal :=
  found <- try_except_NoResultFound
             (d <- db_query (QueryRelease package_name version_) ;;
              row <- one (filter (fun pr => pystr_eqb (normalized_name (fst pr))
                                              (normalize_pep426_name package_name)
                                            && pystr_eqb (version (snd pr)) version_)
                                 (releases_with_project d)) ;;
              ret (Some row))
             (ret None) ;;
  match found with
  | None => ret (VDict [])
  | Some row =>
     let project := fst row in
     let release := snd row in
     let clean := fun o => opt_str (Sanitizer._clean_for_xml o) in
     ret (VDict
       [ (lit "name", VStr (name project));
         (lit "version", VStr (version release));
         (lit "stable_version", VNone);
         (lit "bugtrack_url", VNone);
         (lit "package_url",
           VStr (route_url request (lit "packaging.project") [(lit "name", name project)]));
         (lit "release_url",
           VStr (route_url request (lit "packaging.release")
                   [(lit "name", name project); (lit "version", version release)]));
         (lit "docs_url", clean (documentation_url project));
         (lit "home_page", clean (home_page release));
         (lit "download_url", clean (download_url release));
         (lit "project_url",
           VList (map (fun lu => clean (Some (fst lu ++ lit ", " ++ snd lu)))
                      (project_urls release)));
         (lit "author", clean (author release));
         (lit "author_email", clean (author_email release));
         (lit "maintainer", clean (maintainer release));
         (lit "maintainer_email", clean (maintainer_email release));
         (lit "summary", clean (summary release));
         (lit "description", clean (description_raw release));
         (lit "license", clean (license release));
         (lit "keywords", clean (keywords release));
         (lit "platform", opt_str (platform release));
         (lit "classifiers", str_list (classifiers release));
         (lit "requires", str_list (requires release));
         (lit "requires_dist", str_list (requires_dist release));
         (lit "provides", str_list (provides release));
         (lit "provides_dist", str_list (provides_dist release));
         (lit "obsoletes", str_list (obsoletes release));
         (lit "obsoletes_dist", str_list (obsoletes_dist release));
         (lit "requires_python", opt_str (requires_python release));
         (lit "requires_external", str_list (requires_external release));
         (lit "_pypi_ordering", opt_int (_pypi_ordering release));
         (lit "downloads",
           VDict [ (lit "last_day", VInt (-1)); (lit "last_week", VInt (-1));
                   (lit "last_month", VInt (-1)) ]);
         (lit "cheesecake_code_kwalitee_id", VNone);
         (lit "cheesecake_documentation_id", VNone);
         (lit "cheesecake_installability_id", VNone) ])
  end.

Definition package_urls (request : Request) (package_name version : PyVal) : M PyVal :=
  raise (RaisedFault (XMLRPCWrappedError (RuntimeError
    (lit "This API has been deprecated. "
     ++ (lit "See " ++ XMLRPC_DEPRECATION_URL ++ lit " for more information."))))).

Definition changelog_last_serial (request : Request) : M PyVal :=
  d <- db_query QueryMaxJournalId ;;
  ret (match map id (journals d) with
       | [] => VNone
       | i :: rest => VInt (fold_left Z.max rest i)
       end).

(** [ORDER BY journals.id], ascending. *)
Fixpoint insert_by_id (e : JournalEntry) (sorted : list JournalEntry) : list JournalEntry :=
  match sorted with
  | [] => [e]
  | x :: rest => if (id e <=? id x)%Z then e :: sorted else x :: insert_by_id e rest
  end.

Definition order_by_id (rows : list JournalEntry) : list JournalEntry :=
  fold_right insert_by_id [] rows.

Definition id_le (a b : JournalEntry) : Prop := (id a <= id b)%Z.

(** [LIMIT n]. *)
Definition limit {A} (n : N) (rows : list A) : list A := firstn (N.to_nat n) rows.

(** The entries [changelog_since_serial] iterates over. *)
Definition entries_since_serial (d : Database) (serial : Z) : list JournalEntry :=
  limit 50000 (order_by_id (filter (fun e => (serial <? id e)%Z) (journals d))).

Definition changelog_since_serial (request : Request) (serial : Z) : M PyVal :=
  d <- db_query (QueryJournalsSinceSerial serial) ;;
  let entries := entries_since_serial d serial in
  ret (VList (map (fun e =>
                     VTuple [ opt_str (entry_name e);
                              opt_str (entry_version e);
                              VInt (int (timestamp (submitted_date e)));
                              opt_str (Sanitizer._clean_for_xml (action e));
                              VInt (id e) ])
                  entries)).

(** The entries [changelog] iterates over. *)
Definition entries_since (d : Database) (since_dt : datetime) : list JournalEntry :=
  limit 50000 (order_by_id (filter (fun e => (since_dt <? submitted_date e)%Z) (journals d))).

(** [r[:-1]] of a tuple. *)
Definition drop_last (r : PyVal) : PyVal :=
  match r with
  | VTuple l => VTuple (removelast l)
  | _ => r
  end.

Definition changelog (request : Request) (since : Z) (with_ids : bool) : M PyVal :=
  match utcfromtimestamp since with
  | inl e => raise (RaisedException e)
  | inr since_dt =>
      d <- db_query (QueryJournalsSince since_dt) ;;
      let entries := entries_since d since_dt in
      let results :=
        map (fun e =>
               VTuple [ opt_str (entry_name e);
                        opt_str (entry_version e);
                        VInt (int (timestamp (submitted_date e)));
                        opt_str (action e);
                        VInt (id e) ])
            entries in
      if with_ids then ret (VList results)
      else ret (VList (map drop_last results))
  end.

Definition multicall (request : Request) (args : PyVal) : M PyVal :=
  raise (RaisedFault (XMLRPCWrappedError (ValueError
    (lit "MultiCall requests have been deprecated, use individual "
     ++ lit "requests instead.")))).

(** *** The handlers with their signatures *)

Definition search_handler : Handler :=
  {| params := [ required "spec" (MappingOf StrictStr (Union [StrictStr; ListOf StrictStr]));
                 optional "operator" StrictStr (VStr (lit "and")) ];
     call := fun request values =>
       match values with
       | [spec; operator] => search request spec operator
       | _ => wrong_arguments
       end |}.

Definition list_packages_handler : Handler :=
  {| params := [];
     call := fun request values =>
       match values with
       | [] => list_packages request
       | _ => wrong_arguments
       end |}.

Definition list_packages_with_serial_handler : Handler :=
  {| params := [];
     call := fun request values =>
       match values with
       | [] => list_packages_with_serial request
       | _ => wrong_arguments
       end |}.

Definition package_hosting_mode_handler : Handler :=
  {| params := [ required "package_name" StrictStr ];
     call := fun request values =>
       match values with
       | [VStr package_name] => package_hosting_mode request package_name
       | _ => wrong_arguments
       end |}.

Definition top_packages_handler : Handler :=
  {| params := [ optional "num" (Union [StrictInt; NoneType]) VNone ];
     call := fun request values =>
       match values with
       | [num] => top_packages request num
       | _ => wrong_arguments
       end |}.

Definition package_releases_handler : Handler :=
  {| params := [ required "package_name" StrictStr;
                 optional "show_hidden" StrictBool (VBool false) ];
     call := fun request values =>
       match values with
       | [VStr package_name; VBool show_hidden] =>
           package_releases request package_name show_hidden
       | _ => wrong_arguments
       end |}.

Definition package_data_handler : Handler :=
  {| params := [ required "package_name" Any; required "version" Any ];
     call := fun request values =>
       match values with
       | [package_name; version] => package_data request package_name version
       | _ => wrong_arguments
       end |}.

Definition release_data_handler : Handler :=
  {| params := [ required "package_name" StrictStr; required "version" StrictStr ];
     call := fun request values =>
       match values with
       | [VStr package_name; VStr version] => release_data request package_name version
       | _ => wrong_arguments
       end |}.

Definition package_urls_handler : Handler :=
  {| params := [ required "package_name" Any; required "version" Any ];
     call := fun request values =>
       match values with
       | [package_name; version] => package_urls request package_name version
       | _ => wrong_arguments
       end |}.

Definition changelog_last_serial_handler : Handler :=
  {| params := [];
     call := fun request values =>
       match values with
       | [] => changelog_last_serial request
       | _ => wrong_arguments
       end |}.

Definition changelog_since_serial_handler : Handler :=
  {| params := [ required "serial" StrictInt ];
     call := fun request values =>
       match values with
       | [VInt serial] => changelog_since_serial request serial
       | _ => wrong_arguments
       end |}.

Definition changelog_handler : Handler :=
  {| params := [ required "since" StrictInt;
                 optional "with_ids" StrictBool (VBool false) ];
     call := fun request values =>
       match values with
       | [VInt since; VBool with_ids] => changelog request since with_ids
       | _ => wrong_arguments
       end |}.

Definition multicall_handler : Handler :=
  {| params := [ required "args" Any ];
     call := fun request values =>
       match values with
       | [args] => multicall request args
       | _ => wrong_arguments
       end |}.

(** The deprecated and removed methods, with the handler each is
    registered for. *)
Definition deprecated_methods : list (pystr * Handler) :=
  [ (lit "search", search_handler);
    (lit "top_packages", top_packages_handler);
    (lit "package_data", package_data_handler);
    (lit "package_urls", package_urls_handler);
    (lit "system.multicall", multicall_handler) ].

(** The registrations of the handlers above, in the order of the module. *)
Definition registrations : Registry :=
  let r := [] in
  let r := snd (xmlrpc_method (method_only (lit "search")) search_handler r) in
  let r := snd (xmlrpc_cache_all_projects (lit "list_packages") list_packages_handler r) in
  let r := snd (xmlrpc_cache_all_projects (lit "list_packages_with_serial")
                  list_packages_with_serial_handler r) in
  let r := snd (xmlrpc_method (method_only (lit "package_hosting_mode"))
                  package_hosting_mode_handler r) in
  let r := snd (xmlrpc_method (method_only (lit "top_packages")) top_packages_handler r) in
  let r := snd (xmlrpc_cache_by_project (lit "package_releases") package_releases_handler r) in
  let r := snd (xmlrpc_method (method_only (lit "package_data")) package_data_handler r) in
  let r := snd (xmlrpc_cache_by_project (lit "release_data") release_data_handler r) in
  let r := snd (xmlrpc_method (method_only (lit "package_urls")) package_urls_handler r) in
  let r := snd (xmlrpc_method (method_only (lit "changelog_last_serial"))
                  changelog_last_serial_handler r) in
  let r := snd (xmlrpc_method (method_only (lit "changelog_since_serial"))
                  changelog_since_serial_handler r) in
  let r := snd (xmlrpc_method (method_only (lit "changelog")) changelog_handler r) in
  let r := snd (xmlrpc_method (method_only (lit "system.multicall")) multicall_handler r) in
  r.

(** The exception each deprecated method wraps: the argument of
    [XMLRPCWrappedError] in the body of its handler. *)
Definition deprecation_error (rpc_method : pystr) (request : Request) : Exception :=
  if pystr_eqb rpc_method (lit "search") then
    let domain := settings_get (settings request) (lit "warehouse.domain") (domain request) in
    RuntimeError
      (lit "PyPI no longer supports 'pip search' (or XML-RPC search). "
       ++ (lit "Please use https://" ++ domain ++ lit "/search (via a browser) instead. ")
       ++ (lit "See " ++ XMLRPC_DEPRECATION_URL ++ lit " for more information."))
  else if pystr_eqb rpc_method (lit "top_packages") then
    RuntimeError
      (lit "This API has been removed. Use BigQuery instead. "
       ++ (lit "See " ++ XMLRPC_DEPRECATION_URL ++ lit " for more information."))
  else if pystr_eqb rpc_method (lit "system.multicall") then
    ValueError
      (lit "MultiCall requests have been deprecated, use individual "
       ++ lit "requests instead.")
  else
    RuntimeError
      (lit "This API has been deprecated. "
       ++ (lit "See " ++ XMLRPC_DEPRECATION_URL ++ lit " for more information.")).

(** Do the positional arguments fit the parameters: no more of them than
    parameters, and a default for every parameter they leave out? *)
Definition binds (ps : list Param) (args : list PyVal) : bool :=
  (List.length args <=? List.length ps)%nat
  && match fill_arguments (skipn (List.length args) ps) [] with
     | inr _ => true
     | inl _ => false
     end.

(** A view that always raises and sends no query to the database. *)
Definition faults_without_query (v : View) : Prop :=
  forall context request w,
    (exists r, fst (v context request w) = Raise r)
    /\ db_queries (snd (v context request w)) = db_queries w.

End Gateway.

(** ** Reference services *)

(** Concrete services to run the views on: a fixed-window limiter, a strict
    validator and the functions of the libraries on plain ASCII names. *)
Module Fixtures.

Definition hits_of (identifier : pystr) (hits : list pystr) : nat :=
  List.length (filter (pystr_eqb identifier) hits).

(** A limiter that keeps every hit, admits [quota] hits of a caller and
    reports [reset] to a caller over the quota. *)
Definition fixed_window (quota : nat) (reset : option timedelta) : IRateLimiter :=
  {| limiter_state := list pystr;
     hit := fun identifier hits => identifier :: hits;
     test := fun identifier hits => (Nat.leb (hits_of identifier hits) quota, hits);
     resets_in := fun identifier hits =>
       (if Nat.leb (hits_of identifier hits) quota then None else reset, hits) |}.

(** Does a value have the declared type, without any conversion? *)
Fixpoint conforms (a : Annotation) (v : PyVal) {struct a} : bool :=
  match a with
  | Any => true
  | StrictStr => match v with VStr _ => true | _ => false end
  | StrictInt => match v with VInt _ => true | _ => false end
  | StrictBool => match v with VBool _ => true | _ => false end
  | NoneType => match v with VNone => true | _ => false end
  | Union alternatives =>
      (fix any (l : list Annotation) : bool :=
         match l with
         | [] => false
         | a' :: rest => conforms a' v || any rest
         end) alternatives
  | ListOf item =>
      match v with
      | VList l => forallb (conforms item) l
      | _ => false
      end
  | MappingOf key value =>
      match v with
      | VDict items =>
          forallb (fun kv => conforms key (VStr (fst kv)) && conforms value (snd kv)) items
      | _ => false
      end
  end.

Definition type_error_message (a : Annotation) : pystr :=
  match a with
  | StrictStr => lit "str type expected"
  | StrictInt => lit "value is not a valid integer"
  | StrictBool => lit "value is not a valid boolean"
  | ListOf _ => lit "value is not a valid list"
  | MappingOf _ _ => lit "value is not a valid dict"
  | _ => lit "value is not valid"
  end.

(** The violations of the declared parameters, in order: a positional
    argument, else a keyword, else the default is checked against the
    declared type; a parameter with none of them is missing. *)
Fixpoint violations (ps : list Param) (positional : list PyVal)
    (keyword : list (pystr * PyVal)) : list ErrorDict :=
  match ps with
  | [] => []
  | p :: ps' =>
      let bound :=
        match positional with
        | v :: _ => Some v
        | [] =>
            match keyword_get keyword (param_name p) with
            | Some v => Some v
            | None => default p
            end
        end in
      let here :=
        match bound with
        | None => [ {| loc := [LocName (param_name p)]; msg := lit "field required" |} ]
        | Some v =>
            if conforms (annotation p) v then []
            else [ {| loc := [LocName (param_name p)];
                      msg := type_error_message (annotation p) |} ]
        end in
      here ++ violations ps' (tl positional) keyword
  end.

(** Modelled from the spec: the parameter validator of section 4.2, which
    binds positional and keyword arguments to the declared order, applies
    the defaults, checks every bound value strictly against its declared
    type and collects all violations; pydantic itself is a library outside
    this module.  Arguments beyond the declared parameters are a violation
    of their own. *)
Definition strict_validator : Pydantic :=
  {| validation_errors := fun ps positional keyword =>
       (if (List.length ps <? List.length positional)%nat
        then [ {| loc := [LocName (lit "args")];
                  msg := lit "too many positional arguments" |} ]
        else [])
       ++ violations ps positional keyword |}.

(** [repr] of a text without quotes, backslashes or control characters. *)
Definition plain_repr : Builtins :=
  {| repr_str := fun s => lit "'" ++ s ++ lit "'" |}.

(** The database function agrees with [canonicalize_name] on ASCII names. *)
Definition sql_functions : SqlFunctions :=
  {| normalize_pep426_name := canonicalize_name |}.

Definition a_request (addr : string) (args : list PyVal) : Request :=
  {| remote_addr := lit addr;
     rpc_args := args;
     domain := lit "pypi.org";
     settings := [];
     route_url := fun route _ => lit "https://pypi.org/" ++ route |}.

Definition a_world (RL : IRateLimiter) (l : limiter_state) (d : Database) : World :=
  {| limiter := l;
     limiter_calls := [];
     metrics_calls := [];
     db := d;
     db_queries := [] |}.

Definition empty_database : Database := {| projects := []; journals := [] |}.

Definition an_entry (i : Z) (at_ : datetime) : JournalEntry :=
  {| id := i;
     entry_name := Some (lit "pip");
     entry_version := None;
     submitted_date := at_;
     action := Some (lit "create") |}.

Definition a_journal : Database :=
  {| projects := [];
     journals := [ an_entry 7 7500000%Z; an_entry 3 3000000%Z; an_entry 5 5000001%Z;
                   an_entry 4 4000000%Z ] |}.

End Fixtures.

(** ** Notions the further properties are stated with *)

(** A code point that may go out as it is: ASCII, and not matched by the
    pattern of illegal characters. *)
Definition xml_safe (c : N) : Prop :=
  is_ascii c /\ Sanitizer._illegal_xml_chars_re c = false.

(** The text [_clean_for_xml] makes of a text. *)
Definition cleaned (s : pystr) : pystr :=
  match Sanitizer._clean_for_xml (Some s) with
  | Some t => t
  | None => []
  end.

(** A value [_clean_for_xml] may have produced: [None], or a text of safe
    code points. *)
Definition safe_value (v : PyVal) : Prop :=
  match v with
  | VNone => True
  | VStr s => Forall xml_safe s
  | _ => False
  end.

(** The keys of [release_data] whose values go through [_clean_for_xml]. *)
Definition sanitized_fields : list pystr :=
  [ lit "docs_url"; lit "home_page"; lit "download_url"; lit "author";
    lit "author_email"; lit "maintainer"; lit "maintainer_email";
    lit "summary"; lit "description"; lit "license"; lit "keywords" ].

(** A small catalogue to run the lookups on. *)
Module Catalog.

Definition a_release (v : string) (summary_ : pystr) : Release :=
  {| version := lit v; home_page := Some (lit "https://pip.pypa.io/");
     download_url := None;
     project_urls := [(lit "Source", lit "https://github.com/pypa/pip")];
     author := Some (lit "The pip developers" ++ [0%N]);
     author_email := None; maintainer := None; maintainer_email := None;
     summary := Some summary_;
     description_raw := Some (lit "The installer"); license := Some (lit "MIT");
     keywords := None; platform := None; classifiers := []; requires := [];
     requires_dist := []; provides := []; provides_dist := []; obsoletes := [];
     obsoletes_dist := []; requires_python := Some (lit ">=3.8");
     requires_external := []; _pypi_ordering := Some 1%Z |}.

Definition a_project (n : string) (serial : Z) (releases : list Release) : Project :=
  {| name := lit n; normalized_name := canonicalize_name (lit n);
     last_serial := serial; documentation_url := None;
     all_versions := releases; latest_version := hd_error releases |}.

Definition a_catalog : Database :=
  {| projects :=
       [ a_project "pip" 12 [ a_release "24.0" (lit "Installs packages" ++ [8230%N]);
                              a_release "23.3" (lit "Installs packages") ];
         a_project "Foo_Bar" 9 [ a_release "1.0" (lit "A bar of foo") ];
         a_project "zope.interface" 30 [] ];
     journals :=
       [ Fixtures.an_entry 30 1700000000500000%Z;
         Fixtures.an_entry 9 1600000000000000%Z;
         Fixtures.an_entry 12 1650000000000000%Z ] |}.

End Catalog.

(** * Properties *)

(** ** Text *)

Lemma starts_withb_sound (hay prefix : pystr) :
  starts_withb hay prefix = true -> exists post, hay = prefix ++ post.
Proof.
  revert hay; induction prefix as [|p prefix IH]; intros hay Hs.
  - now exists hay.
  - destruct hay as [|h hay]; simpl in Hs; [discriminate|].
    apply andb_true_iff in Hs as [Hp Hrest].
    apply N.eqb_eq in Hp; subst h.
    destruct (IH _ Hrest) as [post ->].
    now exists post.
Qed.

Lemma starts_withb_complete (prefix post : pystr) :
  starts_withb (prefix ++ post) prefix = true.
Proof.
  induction prefix as [|p prefix IH]; simpl; [reflexivity|].
  now rewrite N.eqb_refl, IH.
Qed.

Lemma containsb_of_prefix (hay needle : pystr) :
  starts_withb hay needle = true -> containsb hay needle = true.
Proof.
  intros H. destruct hay; simpl; now rewrite H.
Qed.

Lemma containsb_spec (hay needle : pystr) :
  containsb hay needle = true <-> contains hay needle.
Proof.
  split.
  - induction hay as [|h hay IH]; simpl; intros Hc.
    + apply orb_true_iff in Hc as [Hs|Hf]; [|discriminate].
      destruct (starts_withb_sound _ _ Hs) as [post Hpost].
      exists [], post. exact Hpost.
    + apply orb_true_iff in Hc as [Hs|Hrest].
      * destruct (starts_withb_sound _ _ Hs) as [post Hpost].
        exists [], post. exact Hpost.
      * destruct (IH Hrest) as (pre & post & ->).
        now exists (h :: pre), post.
  - intros (pre & post & ->).
    induction pre as [|c pre IH].
    + apply containsb_of_prefix. simpl app. apply starts_withb_complete.
    + simpl. rewrite IH. apply orb_true_r.
Qed.

Lemma contains_app_r (pre hay needle : pystr) :
  contains hay needle -> contains (pre ++ hay) needle.
Proof.
  intros (a & b & ->). exists (pre ++ a), b. now rewrite <- app_assoc.
Qed.

Lemma contains_app_l (hay post needle : pystr) :
  contains hay needle -> contains (hay ++ post) needle.
Proof.
  intros (a & b & ->). exists a, (b ++ post). now rewrite <- !app_assoc.
Qed.

Lemma ends_with_app (pre hay suffix : pystr) :
  ends_with hay suffix -> ends_with (pre ++ hay) suffix.
Proof.
  intros (a & ->). exists (pre ++ a). now rewrite <- app_assoc.
Qed.

Lemma contains_join (sep : pystr) (parts : list pystr) (p : pystr) :
  In p parts -> contains (join sep parts) p.
Proof.
  induction parts as [|q parts IH]; intros Hin; [contradiction|].
  destruct Hin as [->|Hin].
  - destruct parts as [|q' parts]; simpl.
    + exists [], []. now rewrite app_nil_r.
    + exists [], (sep ++ join sep (q' :: parts)). reflexivity.
  - specialize (IH Hin).
    destruct parts as [|q' parts]; [contradiction|].
    change (join sep (q :: q' :: parts)) with (q ++ sep ++ join sep (q' :: parts)).
    now apply contains_app_r, contains_app_r.
Qed.

(** ** The sanitizer *)

Section SanitizerFacts.

Import Sanitizer.

Lemma digits_ascii (d : Decimal.uint) : Forall is_ascii (digits d).
Proof.
  induction d; simpl; constructor; auto; unfold is_ascii; lia.
Qed.

Lemma xmlcharrefreplace_ascii (c : N) : Forall is_ascii (xmlcharrefreplace c).
Proof.
  unfold xmlcharrefreplace.
  destruct (c <? 128)%N eqn:E.
  - constructor; [|constructor]. now apply N.ltb_lt.
  - apply Forall_app; split; [|apply Forall_app; split].
    + repeat constructor; unfold is_ascii; simpl; lia.
    + apply digits_ascii.
    + repeat constructor; unfold is_ascii; simpl; lia.
Qed.

Lemma encode_ascii_is_ascii (s : pystr) : Forall is_ascii (encode_ascii s).
Proof.
  induction s as [|c s IH]; simpl; [constructor|].
  apply Forall_app; split; [apply xmlcharrefreplace_ascii|exact IH].
Qed.

Lemma encode_ascii_fixed (s : pystr) : Forall is_ascii s -> encode_ascii s = s.
Proof.
  induction 1 as [|c s Hc _ IH]; simpl; [reflexivity|].
  unfold xmlcharrefreplace.
  apply N.ltb_lt in Hc. rewrite Hc. simpl. now rewrite IH.
Qed.

Lemma re_sub_empty_ascii (s : pystr) : Forall is_ascii s -> Forall is_ascii (re_sub_empty s).
Proof.
  intros H. unfold re_sub_empty.
  apply Forall_forall. intros c Hc.
  apply filter_In in Hc as [Hc _].
  revert c Hc. now apply Forall_forall.
Qed.

Lemma re_sub_empty_idempotent (s : pystr) :
  re_sub_empty (re_sub_empty s) = re_sub_empty s.
Proof.
  unfold re_sub_empty.
  induction s as [|c s IH]; simpl; [reflexivity|].
  destruct (negb (_illegal_xml_chars_re c)) eqn:E; simpl.
  - now rewrite E, IH.
  - exact IH.
Qed.

(** C5: the sanitizer is idempotent on every text and on [None], and it
    returns the empty string and [None] as they are. *)
Theorem clean_for_xml_idempotent :
  (forall data : option pystr,
      _clean_for_xml (_clean_for_xml data) = _clean_for_xml data)
  /\ _clean_for_xml (Some []) = Some []
  /\ _clean_for_xml None = None.
Proof.
  split; [|split; reflexivity].
  intros [[|c s]|]; try reflexivity.
  change (_clean_for_xml (Some (c :: s)))
    with (Some (re_sub_empty (encode_ascii (c :: s)))).
  pose proof (re_sub_empty_ascii (encode_ascii_is_ascii (c :: s))) as Hascii.
  pose proof (re_sub_empty_idempotent (encode_ascii (c :: s))) as Hidem.
  destruct (re_sub_empty (encode_ascii (c :: s))) as [|c' s'] eqn:E; [reflexivity|].
  unfold _clean_for_xml.
  now rewrite (encode_ascii_fixed Hascii), Hidem.
Qed.

End SanitizerFacts.

(** The example of the source: an ellipsis becomes its character
    reference, and what the pattern matches is dropped. *)
Example clean_hello :
  Sanitizer._clean_for_xml (Some (lit "Hello" ++ [8230%N] ++ [0%N; 11%N; 65534%N] ++ lit "!"))
  = Some (lit "Hello&#8230;&#65534;!").
Proof. reflexivity. Qed.

(** ** Faults *)

(** C6: the three fault classes carry the codes -32403, -32602 and -32500,
    pairwise distinct; a service-unavailable fault reads
    "server error; service unavailable", and a wrapped error reads the class
    name of the wrapped exception, ": " and its text. *)
Theorem fault_codes_and_messages :
  faultCode XMLRPCServiceUnavailable = (-32403)%Z
  /\ faultString XMLRPCServiceUnavailable = lit "server error; service unavailable"
  /\ (forall e : Exception,
        faultCode (XMLRPCWrappedError e) = (-32500)%Z
        /\ faultString (XMLRPCWrappedError e) = exc_class_name e ++ lit ": " ++ exc_str e)
  /\ (forall exc : pystr, faultCode (XMLRPCInvalidParamTypes exc) = (-32602)%Z)
  /\ (forall (e : Exception) (exc : pystr),
        faultCode (XMLRPCWrappedError e) <> faultCode (XMLRPCInvalidParamTypes exc)
        /\ faultCode (XMLRPCWrappedError e) <> faultCode XMLRPCServiceUnavailable
        /\ faultCode (XMLRPCInvalidParamTypes exc) <> faultCode XMLRPCServiceUnavailable).
Proof.
  repeat split; simpl; unfold XmlRpcInvalidMethodParams_faultCode; lia.
Qed.

Example wrapped_runtime_error :
  faultString (XMLRPCWrappedError (RuntimeError (lit "boom"))) = lit "RuntimeError: boom".
Proof. reflexivity. Qed.

(** ** The rate limiter adapter *)

Section RateLimitFacts.

Context {RL : IRateLimiter}.

Lemma too_many_requests_in_message (suffix : pystr) :
  contains (faultString (XMLRPCWrappedError
              (HTTPTooManyRequests (too_many_requests_message ++ suffix))))
           (lit "too many requests").
Proof.
  change (faultString (XMLRPCWrappedError
            (HTTPTooManyRequests (too_many_requests_message ++ suffix))))
    with (lit "HTTPTooManyRequests" ++ lit ": " ++ too_many_requests_message ++ suffix).
  rewrite 2!app_assoc.
  apply contains_app_l, containsb_spec.
  vm_compute. reflexivity.
Qed.

(** What [ratelimit] does to a caller over the limit, step by step. *)
Lemma ratelimit_rejects (f : View) (context : PyVal) (request : Request) (w : World) :
  let addr := remote_addr request in
  let tested := test addr (hit addr (limiter w)) in
  let reset := resets_in addr (snd tested) in
  let message :=
    match fst reset with
    | Some d => too_many_requests_message ++ lit " Limit may reset in "
                ++ str_of_Z (Z.max 1 (int (total_seconds d))) ++ lit " seconds."
    | None => too_many_requests_message
    end in
  fst tested = false ->
  ratelimit f context request w =
    (Raise (RaisedFault (XMLRPCWrappedError (HTTPTooManyRequests message))),
     {| limiter := snd reset;
        limiter_calls := ((limiter_calls w ++ [CallHit addr]) ++ [CallTest addr])
                         ++ [CallResetsIn addr];
        metrics_calls := metrics_calls w
                         ++ [Increment (lit "warehouse.xmlrpc.ratelimiter.exceeded") []];
        db := db w;
        db_queries := db_queries w |}).
Proof.
  intros addr tested reset message Hover.
  subst message reset.
  unfold ratelimit, bind, ratelimiter_hit, ratelimiter_test, ratelimiter_resets_in,
    metrics_increment, record_metric, raise.
  cbn [limiter limiter_calls metrics_calls db db_queries].
  fold addr. change (test addr (hit addr (limiter w))) with tested.
  destruct tested as [within l1]. cbn [fst snd] in *. subst within. cbn [negb].
  cbn [limiter limiter_calls metrics_calls db db_queries].
  destruct (resets_in addr l1) as [[d|] l2]; reflexivity.
Qed.

(** What [ratelimit] does to a caller within the limit. *)
Lemma ratelimit_admits (f : View) (context : PyVal) (request : Request) (w : World) :
  let addr := remote_addr request in
  let tested := test addr (hit addr (limiter w)) in
  fst tested = true ->
  ratelimit f context request w =
    f context request
      {| limiter := snd tested;
         limiter_calls := (limiter_calls w ++ [CallHit addr]) ++ [CallTest addr];
         metrics_calls := metrics_calls w
                          ++ [Increment (lit "warehouse.xmlrpc.ratelimiter.hit") []];
         db := db w;
         db_queries := db_queries w |}.
Proof.
  intros addr tested Hin.
  unfold ratelimit, bind, ratelimiter_hit, ratelimiter_test, metrics_increment,
    record_metric.
  cbn [limiter limiter_calls metrics_calls db db_queries].
  fold addr. change (test addr (hit addr (limiter w))) with tested.
  destruct tested as [within l1]. cbn [fst snd] in *. subst within. cbn [negb].
  cbn [limiter limiter_calls metrics_calls db db_queries].
  destruct (f context request _) as [[a|r] w']; reflexivity.
Qed.

(** C3: every call first records one hit for the caller and only then tests
    the quota, on the limiter as the hit left it.  A caller within the limit
    goes on to the wrapped view after exactly that hit and that test; a
    caller over the limit is rejected with the hit recorded: the calls on
    the limiter are then the hit, the test and the question for the reset
    time. *)
Theorem ratelimit_records_hit_before_test
    (f : View) (context : PyVal) (request : Request) (w : World) :
  let addr := remote_addr request in
  let tested := test addr (hit addr (limiter w)) in
  let result := ratelimit f context request w in
  if fst tested then
    exists w1 : World,
      limiter_calls w1 = limiter_calls w ++ [CallHit addr; CallTest addr]
      /\ limiter w1 = snd tested
      /\ result = f context request w1
  else
    limiter_calls (snd result)
      = limiter_calls w ++ [CallHit addr; CallTest addr; CallResetsIn addr]
    /\ exists e : Exception, fst result = Raise (RaisedFault (XMLRPCWrappedError e)).
Proof.
  intros addr tested result.
  destruct (fst tested) eqn:E.
  - eexists. split; [|split; [|subst result; apply (ratelimit_admits f context request w E)]].
    + simpl. now rewrite <- app_assoc.
    + reflexivity.
  - subst result. rewrite (ratelimit_rejects f context request w E). simpl.
    split; [now rewrite <- !app_assoc | eauto].
Qed.

(** C1, as the code has it: the fault of a caller over the limit wraps an
    [HTTPTooManyRequests] whose text contains "too many requests"; when the
    limiter reports a reset time [d], of less than 2^34 seconds either way,
    the text ends with "Limit may reset in N seconds." where N is
    [d.total_seconds()] truncated to a whole number and raised to 1 when
    below. *)
Theorem ratelimit_over_quota_message
    (f : View) (context : PyVal) (request : Request) (w : World) :
  let addr := remote_addr request in
  let tested := test addr (hit addr (limiter w)) in
  fst tested = false ->
  (forall d : timedelta,
     fst (resets_in addr (snd tested)) = Some d -> truncates_exactly d) ->
  exists message : pystr,
    let fault := XMLRPCWrappedError (HTTPTooManyRequests message) in
    fst (ratelimit f context request w) = Raise (RaisedFault fault)
    /\ contains (faultString fault) (lit "too many requests")
    /\ match fst (resets_in addr (snd tested)) with
       | Some d =>
           ends_with (faultString fault)
             (lit "Limit may reset in "
              ++ str_of_Z (Z.max 1 (Z.quot (total_microseconds d) 1000000))
              ++ lit " seconds.")
       | None => message = too_many_requests_message
       end.
Proof.
  intros addr tested Hover _.
  rewrite (ratelimit_rejects f context request w Hover). simpl fst.
  fold addr. fold tested.
  destruct (fst (resets_in addr (snd tested))) as [d|].
  - eexists. split; [reflexivity|]. split.
    + apply too_many_requests_in_message.
    + simpl. unfold ends_with.
      exists (lit "HTTPTooManyRequests" ++ lit ": " ++ too_many_requests_message ++ lit " ").
      change (int (total_seconds d)) with (Z.quot (total_microseconds d) 1000000).
      rewrite <- !app_assoc. reflexivity.
  - exists too_many_requests_message. split; [reflexivity|]. split; [|reflexivity].
    rewrite <- (app_nil_r too_many_requests_message).
    apply too_many_requests_in_message.
Qed.

(** On a whole number of seconds truncation and ceiling agree; they differ
    only when a fraction of a second remains. *)
Lemma whole_seconds_truncation_is_ceiling (d : timedelta) :
  (total_microseconds d mod 1000000 = 0)%Z ->
  int (total_seconds d) = Qceiling (total_seconds d).
Proof.
  intros Hmod.
  unfold int, Qceiling, Qfloor, total_seconds. cbn [Qnum Qden Qopp].
  pose proof (Z.div_mod (total_microseconds d) 1000000 ltac:(lia)) as Hdiv.
  rewrite Hmod, Z.add_0_r in Hdiv.
  set (q := (total_microseconds d / 1000000)%Z) in *.
  rewrite Hdiv.
  replace (1000000 * q)%Z with (q * 1000000)%Z by lia.
  rewrite Z.quot_mul by lia.
  replace (- (q * 1000000))%Z with ((- q) * 1000000)%Z by lia.
  rewrite Z.div_mul by lia. lia.
Qed.

End RateLimitFacts.

(** A caller over a quota of no hits at all, told to come back in a second
    and a half. *)
Lemma ratelimit_over_quota_message_witness :
  let d := {| days := 0; seconds := 1; microseconds := 500000 |} in
  let RL := Fixtures.fixed_window 0 (Some d) in
  exists message : pystr,
    fst (ratelimit (fun _ _ => ret VNone) VNone (Fixtures.a_request "203.0.113.7" [])
           (Fixtures.a_world RL [] Fixtures.empty_database))
    = Raise (RaisedFault (XMLRPCWrappedError (HTTPTooManyRequests message)))
    /\ ends_with (faultString (XMLRPCWrappedError (HTTPTooManyRequests message)))
         (lit "Limit may reset in 1 seconds.").
Proof.
  intros d RL.
  assert (Hexact : forall d' : timedelta,
            fst (resets_in (remote_addr (Fixtures.a_request "203.0.113.7" []))
                   (snd (test (remote_addr (Fixtures.a_request "203.0.113.7" []))
                           (hit (remote_addr (Fixtures.a_request "203.0.113.7" []))
                                (limiter (Fixtures.a_world RL [] Fixtures.empty_database))))))
            = Some d' ->
            truncates_exactly d').
  { intros d' Hd. vm_compute in Hd. injection Hd as <-. reflexivity. }
  destruct (@ratelimit_over_quota_message RL (fun _ _ => ret VNone) VNone
              (Fixtures.a_request "203.0.113.7" [])
              (Fixtures.a_world RL [] Fixtures.empty_database) eq_refl Hexact)
    as (message & Hraise & _ & Hend).
  exists message. split; [exact Hraise | exact Hend].
Defined.

(** C1 as stated fails: with a second and a half to go the ceiling is 2,
    and the fault says 1. *)
Lemma ratelimit_reset_hint_is_not_the_ceiling :
  let d := {| days := 0; seconds := 1; microseconds := 500000 |} in
  let RL := Fixtures.fixed_window 0 (Some d) in
  exists fault : Fault,
    fst (ratelimit (fun _ _ => ret VNone) VNone (Fixtures.a_request "203.0.113.7" [])
           (Fixtures.a_world RL [] Fixtures.empty_database))
    = Raise (RaisedFault fault)
    /\ fst (resets_in (lit "203.0.113.7") (hit (lit "203.0.113.7") [])) = Some d
    /\ Z.max 1 (Qceiling (total_seconds d)) = 2%Z
    /\ faultString fault
       = lit "HTTPTooManyRequests: The action could not be performed because there were too many requests by the client. Limit may reset in 1 seconds."
    /\ ~ contains (faultString fault)
           (lit "Limit may reset in "
            ++ str_of_Z (Z.max 1 (Qceiling (total_seconds d))) ++ lit " seconds").
Proof.
  intros d RL. eexists. split; [vm_compute; reflexivity|].
  split; [reflexivity|]. split; [reflexivity|]. split; [reflexivity|].
  intros Hc. apply containsb_spec in Hc. vm_compute in Hc. discriminate.
Qed.

(** ** The typed mapper *)

Section MapperFacts.

Context {RL : IRateLimiter} {PD : Pydantic} {PB : Builtins}.

(** C2: when the validation of a call reports violations, [mapply] raises
    one [XMLRPCInvalidParamTypes] fault and does nothing else (the handler
    is not called); its code is the invalid-parameters code, and its text
    is every violation rendered as location, ": " and reason, joined by
    "; ", so that each violation can be read in it. *)
Theorem mapply_reports_every_violation
    (fn : Handler) (request : Request) (args : list PyVal)
    (kwargs : list (pystr * PyVal)) (w : World) :
  let errors := validation_errors (params fn) args kwargs in
  let fault :=
    XMLRPCInvalidParamTypes (join (lit "; ") (map render_violation errors)) in
  errors <> [] ->
  mapply fn request args kwargs w = (Raise (RaisedFault fault), w)
  /\ faultCode fault = (-32602)%Z
  /\ faultString fault
     = lit "client error; " ++ join (lit "; ") (map render_violation errors)
  /\ forall e : ErrorDict,
       In e errors ->
       contains (faultString fault) (format_loc (loc e) ++ lit ": " ++ msg e).
Proof.
  intros errors fault Hne.
  split; [|split; [reflexivity|split; [reflexivity|]]].
  - unfold mapply. fold errors. subst fault.
    destruct errors as [|e errors']; [contradiction|reflexivity].
  - intros e He. subst fault.
    change (faultString (XMLRPCInvalidParamTypes
              (join (lit "; ") (map render_violation errors))))
      with (lit "client error; " ++ join (lit "; ") (map render_violation errors)).
    apply contains_app_r, contains_join.
    change (format_loc (loc e) ++ lit ": " ++ msg e) with (render_violation e).
    now apply in_map.
Qed.

(** A call that passes validation goes on to the handler. *)
Lemma mapply_valid (fn : Handler) (request : Request) (args : list PyVal)
    (kwargs : list (pystr * PyVal)) :
  validation_errors (params fn) args kwargs = [] ->
  mapply fn request args kwargs = super_mapply fn request args kwargs.
Proof.
  intros H. unfold mapply. now rewrite H.
Qed.

End MapperFacts.

(** Both arguments of [package_releases] of the wrong type: both are
    reported. *)
Lemma mapply_reports_every_violation_witness :
  let RL := Fixtures.fixed_window 10 None in
  let w := Fixtures.a_world RL [] Fixtures.empty_database in
  @mapply RL Fixtures.strict_validator Fixtures.plain_repr
    (@package_releases_handler RL Fixtures.sql_functions)
    (Fixtures.a_request "203.0.113.7" []) [VInt 5; VStr (lit "yes")] [] w
  = (Raise (RaisedFault (XMLRPCInvalidParamTypes
       (lit "('package_name',): str type expected; ('show_hidden',): value is not a valid boolean"))),
     w).
Proof.
  intros RL w.
  refine (proj1 (@mapply_reports_every_violation RL Fixtures.strict_validator
                   Fixtures.plain_repr
                   (@package_releases_handler RL Fixtures.sql_functions)
                   (Fixtures.a_request "203.0.113.7" [])
                   [VInt 5; VStr (lit "yes")] [] w _)).
  vm_compute. discriminate.
Defined.

(** ** Registration under the aliases *)

Lemma pystr_eqb_eq (a b : pystr) : pystr_eqb a b = true <-> a = b.
Proof.
  revert b; induction a as [|x a IH]; intros [|y b]; simpl; split; intros H;
    try reflexivity; try discriminate.
  - apply andb_true_iff in H as [Hx Hab].
    apply N.eqb_eq in Hx. apply IH in Hab. now subst.
  - injection H as -> ->. rewrite N.eqb_refl. now apply IH.
Qed.

Lemma pystr_eqb_refl (a : pystr) : pystr_eqb a a = true.
Proof. now apply pystr_eqb_eq. Qed.

Lemma pystr_eqb_neq (a b : pystr) : a <> b -> pystr_eqb a b = false.
Proof.
  intros H. destruct (pystr_eqb a b) eqn:E; [|reflexivity].
  apply pystr_eqb_eq in E. contradiction.
Qed.

Section RegistrationFacts.

Context {RL : IRateLimiter} {PD : Pydantic} {PB : Builtins}.

(** The whole pipeline of a method: metrics around the rate limiter around
    the typed mapper around the handler. *)
Lemma derive_view_pipeline (route : pystr) (kwargs : ViewOptions) (f : Handler) :
  derive_view {| endpoint := route; options := update_defaults kwargs; handler := f |}
  = Some (submit_xmlrpc_metrics (method kwargs) (ratelimit (TypedMapplyViewMapper f))).
Proof. reflexivity. Qed.

Lemma find_view_skips (registry added : Registry) (route rpc_method : pystr) :
  (forall r, In r registry -> method (options r) <> rpc_method) ->
  find_view (registry ++ added) route rpc_method = find_view added route rpc_method.
Proof.
  induction registry as [|r registry IH]; intros Hfresh; [reflexivity|].
  simpl. rewrite (pystr_eqb_neq (Hfresh r (or_introl eq_refl))), andb_false_r.
  apply IH. intros r' Hr'. apply Hfresh. now right.
Qed.

(** C4: once a method is registered, each of the three endpoints finds a
    view for it, and it is the same view everywhere: the metrics decorator
    around the rate limiter around the typed mapper around the handler.  On
    the same context, request and world the views of two endpoints
    therefore give the same outcome and leave the same world. *)
Theorem aliases_serve_the_same_view
    (kwargs : ViewOptions) (f : Handler) (registry : Registry) :
  (forall r, In r registry -> method (options r) <> method kwargs) ->
  let registry' := snd (xmlrpc_method kwargs f registry) in
  let pipeline :=
    submit_xmlrpc_metrics (method kwargs) (ratelimit (TypedMapplyViewMapper f)) in
  (forall route, In route aliases ->
     find_view registry' route (method kwargs) = Some pipeline)
  /\ (forall route1 route2, In route1 aliases -> In route2 aliases ->
      exists view1 view2 : View,
        find_view registry' route1 (method kwargs) = Some view1
        /\ find_view registry' route2 (method kwargs) = Some view2
        /\ forall context request w, view1 context request w = view2 context request w).
Proof.
  intros Hfresh registry' pipeline.
  assert (Hall : forall route, In route aliases ->
            find_view registry' route (method kwargs) = Some pipeline).
  { intros route Hroute. subst registry'.
    unfold xmlrpc_method, _xmlrpc_method. cbn [snd fst].
    rewrite <- !app_assoc. rewrite (find_view_skips _ _ _ Hfresh).
    cbn [app find_view endpoint options method update_defaults].
    rewrite !pystr_eqb_refl, !andb_true_r.
    destruct Hroute as [<-|[<-|[<-|[]]]]; reflexivity. }
  split; [exact Hall|].
  intros route1 route2 H1 H2.
  exists pipeline, pipeline. repeat split; auto.
Qed.

End RegistrationFacts.

(** [top_packages] registered after [search]. *)
Lemma aliases_serve_the_same_view_witness :
  let RL := Fixtures.fixed_window 10 None in
  let PD := Fixtures.strict_validator in
  let PB := Fixtures.plain_repr in
  let registry := snd (xmlrpc_method (method_only (lit "search")) search_handler []) in
  let registry' := snd (xmlrpc_method (method_only (lit "top_packages"))
                          top_packages_handler registry) in
  find_view registry' (lit "xmlrpc.pypi") (lit "top_packages")
  = find_view registry' (lit "xmlrpc.RPC2") (lit "top_packages")
  /\ find_view registry' (lit "xmlrpc.pypi_slash") (lit "top_packages")
     = find_view registry' (lit "xmlrpc.RPC2") (lit "top_packages").
Proof.
  intros RL PD PB registry registry'.
  assert (Hfresh : forall r, In r registry ->
            method (options r) <> method (method_only (lit "top_packages"))).
  { intros r [<-|[<-|[<-|[]]]]; vm_compute; discriminate. }
  destruct (@aliases_serve_the_same_view RL PD PB
              (method_only (lit "top_packages")) top_packages_handler registry Hfresh)
    as [Hall _].
  split.
  - transitivity (Some (submit_xmlrpc_metrics (lit "top_packages")
                          (ratelimit (TypedMapplyViewMapper top_packages_handler)))).
    + apply (Hall (lit "xmlrpc.pypi")). right. left. reflexivity.
    + symmetry. apply (Hall (lit "xmlrpc.RPC2")). left. reflexivity.
  - transitivity (Some (submit_xmlrpc_metrics (lit "top_packages")
                          (ratelimit (TypedMapplyViewMapper top_packages_handler)))).
    + apply (Hall (lit "xmlrpc.pypi_slash")). right. right. left. reflexivity.
    + symmetry. apply (Hall (lit "xmlrpc.RPC2")). left. reflexivity.
Defined.

(** ** The deprecated methods *)

Section DeprecatedFacts.

Context {RL : IRateLimiter} {PD : Pydantic} {PB : Builtins} {SF : SqlFunctions}.

Lemma ratelimit_faults_without_query (f : View) :
  faults_without_query f -> faults_without_query (ratelimit f).
Proof.
  intros Hf context request w.
  destruct (fst (test (remote_addr request) (hit (remote_addr request) (limiter w)))) eqn:E.
  - rewrite (ratelimit_admits f context request w E). exact (Hf context request _).
  - rewrite (ratelimit_rejects f context request w E). split; [eexists|]; reflexivity.
Qed.

Lemma metrics_faults_without_query (method : pystr) (f : View) :
  faults_without_query f -> faults_without_query (submit_xmlrpc_metrics method f).
Proof.
  intros Hf context request w.
  unfold submit_xmlrpc_metrics, bind, metrics_increment, metrics_timed.
  destruct (Hf context request
              (record_metric (Increment (lit "warehouse.xmlrpc.call")
                                        [lit "rpc_method:" ++ method]) w))
    as [[r Hr] Hq].
  destruct (f context request _) as [o w']. cbn [fst snd] in *.
  split; [exists r; exact Hr | exact Hq].
Qed.

Lemma mapper_faults_without_query (h : Handler) :
  (forall request values w, exists r, call h request values w = (Raise r, w)) ->
  faults_without_query (TypedMapplyViewMapper h).
Proof.
  intros Hh context request w.
  unfold TypedMapplyViewMapper, mapply.
  destruct (validation_errors (params h) (rpc_args request) []).
  - unfold super_mapply.
    destruct (List.length (params h) <? List.length (rpc_args request))%nat.
    + split; [eexists|]; reflexivity.
    + destruct (fill_arguments _ _) as [e|vs].
      * split; [eexists|]; reflexivity.
      * destruct (Hh request (rpc_args request ++ vs) w) as [r ->].
        split; [eexists|]; reflexivity.
  - split; [eexists|]; reflexivity.
Qed.

Lemma deprecated_handlers_raise (method : pystr) (h : Handler) :
  In (method, h) deprecated_methods ->
  forall request values w, exists r, call h request values w = (Raise r, w).
Proof.
  intros Hin request values w.
  repeat (destruct Hin as [Heq|Hin]; [injection Heq as <- <-|]); try contradiction;
    destruct values as [|a [|b [|c l]]]; eexists; reflexivity.
Qed.

Lemma fill_arguments_length (names : list Param) (keyword : list (pystr * PyVal))
    (vs : list PyVal) :
  fill_arguments names keyword = inr vs -> List.length vs = List.length names.
Proof.
  revert vs. induction names as [|p names IH]; intros vs H; cbn [fill_arguments] in H.
  - now injection H as <-.
  - destruct (keyword_get keyword (param_name p)) as [v|];
      [|destruct (default p) as [d|]; [|discriminate]];
      (destruct (fill_arguments names keyword) as [e|vs'] eqn:E; [discriminate|];
       injection H as <-; cbn [List.length]; f_equal; now apply IH).
Qed.

(** A call the limiter admits, the validation accepts and whose arguments
    fit: its outcome is the outcome of the handler on one value per
    parameter. *)
Lemma admitted_call_reaches_the_handler
    (rpc_method : pystr) (h : Handler) (context : PyVal) (request : Request) (w : World) :
  fst (test (remote_addr request) (hit (remote_addr request) (limiter w))) = true ->
  validation_errors (params h) (rpc_args request) [] = [] ->
  binds (params h) (rpc_args request) = true ->
  exists (values : list PyVal) (w2 : World),
    List.length values = List.length (params h)
    /\ fst (submit_xmlrpc_metrics rpc_method (ratelimit (TypedMapplyViewMapper h))
              context request w)
       = fst (call h request values w2).
Proof.
  intros Hadmit Hvalid Hbinds.
  unfold binds in Hbinds. apply andb_true_iff in Hbinds as [Hfew Hfill].
  apply Nat.leb_le in Hfew.
  destruct (fill_arguments (skipn (List.length (rpc_args request)) (params h)) [])
    as [e|vs] eqn:Efill; [discriminate|].
  pose proof (fill_arguments_length _ _ Efill) as Hlen.
  rewrite length_skipn in Hlen.
  unfold submit_xmlrpc_metrics, bind, metrics_increment, metrics_timed.
  set (w1 := record_metric (Increment (lit "warehouse.xmlrpc.call")
                              [lit "rpc_method:" ++ rpc_method]) w).
  assert (Hadmit1 : fst (test (remote_addr request) (hit (remote_addr request) (limiter w1)))
                    = true) by exact Hadmit.
  rewrite (ratelimit_admits (TypedMapplyViewMapper h) context request w1 Hadmit1).
  match goal with
  | |- context [TypedMapplyViewMapper h context request ?x] => set (w2 := x)
  end.
  exists (rpc_args request ++ vs), w2. split.
  - rewrite length_app. lia.
  - unfold TypedMapplyViewMapper, mapply. rewrite Hvalid.
    unfold super_mapply. rewrite Efill.
    assert (Hnot : (List.length (params h) <? List.length (rpc_args request))%nat = false)
      by (apply Nat.ltb_ge; exact Hfew).
    rewrite Hnot.
    destruct (call h request (rpc_args request ++ vs) w2) as [o w3]. reflexivity.
Qed.

Lemma deprecated_handlers_wrap (rpc_method : pystr) (h : Handler) :
  In (rpc_method, h) deprecated_methods ->
  forall request values w,
    List.length values = List.length (params h) ->
    call h request values w
    = (Raise (RaisedFault (XMLRPCWrappedError (deprecation_error rpc_method request))), w).
Proof.
  intros Hin request values w Hlen.
  repeat (destruct Hin as [Heq|Hin]; [injection Heq as <- <-|]); try contradiction;
    destruct values as [|a [|b [|c l]]]; try discriminate Hlen; reflexivity.
Qed.

(** C7, as the code has it: each of [search], [top_packages],
    [package_data], [package_urls] and [system.multicall] raises, on every
    request and every value of its arguments, an [XMLRPCWrappedError] whose
    text does not depend on the arguments (for [search] it names the
    configured domain), and leaves the world as it was: no query is sent.
    Through each of the three endpoints the registered view of such a
    method always ends in a fault and sends no query, and for a caller
    within the limit, with arguments the validation accepts and that fit
    the parameters, the fault is that [XMLRPCWrappedError]. *)
Theorem deprecated_methods_always_fault :
  (forall request spec operator (w : World),
     search request spec operator w
     = (Raise (RaisedFault (XMLRPCWrappedError (RuntimeError
          (lit "PyPI no longer supports 'pip search' (or XML-RPC search). Please use https://"
           ++ settings_get (settings request) (lit "warehouse.domain") (domain request)
           ++ lit "/search (via a browser) instead. See https://warehouse.pypa.io/api-reference/xml-rpc.html#deprecated-methods for more information.")))),
        w))
  /\ (forall request num (w : World),
        top_packages request num w
        = (Raise (RaisedFault (XMLRPCWrappedError (RuntimeError
             (lit "This API has been removed. Use BigQuery instead. See https://warehouse.pypa.io/api-reference/xml-rpc.html#deprecated-methods for more information.")))),
           w))
  /\ (forall request package_name version (w : World),
        package_data request package_name version w
        = (Raise (RaisedFault (XMLRPCWrappedError (RuntimeError
             (lit "This API has been deprecated. See https://warehouse.pypa.io/api-reference/xml-rpc.html#deprecated-methods for more information.")))),
           w))
  /\ (forall request package_name version (w : World),
        package_urls request package_name version w
        = (Raise (RaisedFault (XMLRPCWrappedError (RuntimeError
             (lit "This API has been deprecated. See https://warehouse.pypa.io/api-reference/xml-rpc.html#deprecated-methods for more information.")))),
           w))
  /\ (forall request args (w : World),
        multicall request args w
        = (Raise (RaisedFault (XMLRPCWrappedError (ValueError
             (lit "MultiCall requests have been deprecated, use individual requests instead.")))),
           w))
  /\ (forall rpc_method h route,
        In (rpc_method, h) deprecated_methods -> In route aliases ->
        exists view : View,
          find_view registrations route rpc_method = Some view
          /\ faults_without_query view
          /\ forall context request (w : World),
               fst (test (remote_addr request) (hit (remote_addr request) (limiter w)))
               = true ->
               validation_errors (params h) (rpc_args request) [] = [] ->
               binds (params h) (rpc_args request) = true ->
               fst (view context request w)
               = Raise (RaisedFault
                          (XMLRPCWrappedError (deprecation_error rpc_method request))))
  /\ (forall request,
        deprecation_error (lit "search") request
        = RuntimeError
            (lit "PyPI no longer supports 'pip search' (or XML-RPC search). Please use https://"
             ++ settings_get (settings request) (lit "warehouse.domain") (domain request)
             ++ lit "/search (via a browser) instead. See https://warehouse.pypa.io/api-reference/xml-rpc.html#deprecated-methods for more information.")
        /\ deprecation_error (lit "top_packages") request
           = RuntimeError
               (lit "This API has been removed. Use BigQuery instead. See https://warehouse.pypa.io/api-reference/xml-rpc.html#deprecated-methods for more information.")
        /\ deprecation_error (lit "package_data") request
           = RuntimeError
               (lit "This API has been deprecated. See https://warehouse.pypa.io/api-reference/xml-rpc.html#deprecated-methods for more information.")
        /\ deprecation_error (lit "package_urls") request
           = RuntimeError
               (lit "This API has been deprecated. See https://warehouse.pypa.io/api-reference/xml-rpc.html#deprecated-methods for more information.")
        /\ deprecation_error (lit "system.multicall") request
           = ValueError
               (lit "MultiCall requests have been deprecated, use individual requests instead.")).
Proof.
  split.
  { intros request spec operator w. unfold search, raise.
    rewrite <- !app_assoc. reflexivity. }
  split; [reflexivity|]. split; [reflexivity|].
  split; [reflexivity|]. split; [reflexivity|].
  split.
  - intros rpc_method h route Hin Hroute.
    exists (submit_xmlrpc_metrics rpc_method (ratelimit (TypedMapplyViewMapper h))).
    split; [|split].
    + repeat (destruct Hin as [Heq|Hin]; [injection Heq as <- <-|]); try contradiction;
        destruct Hroute as [<-|[<-|[<-|[]]]]; reflexivity.
    + apply metrics_faults_without_query, ratelimit_faults_without_query,
        mapper_faults_without_query.
      exact (deprecated_handlers_raise Hin).
    + intros context request w Hadmit Hvalid Hbinds.
      destruct (admitted_call_reaches_the_handler rpc_method h context request w
                  Hadmit Hvalid Hbinds) as (values & w2 & Hlen & ->).
      now rewrite (deprecated_handlers_wrap Hin request values w2 Hlen).
  - intros request. split.
    { unfold deprecation_error. cbn [pystr_eqb]. rewrite <- !app_assoc. reflexivity. }
    repeat split; reflexivity.
Qed.

End DeprecatedFacts.

(** [top_packages] asked for three packages through [xmlrpc.RPC2] by a
    caller within the limit. *)
Lemma deprecated_methods_always_fault_witness :
  let RL := Fixtures.fixed_window 10 None in
  let request := Fixtures.a_request "203.0.113.7" [VInt 3] in
  let w := Fixtures.a_world RL [] Catalog.a_catalog in
  match @find_view RL
          (@registrations RL Fixtures.strict_validator Fixtures.plain_repr
             Fixtures.sql_functions)
          (lit "xmlrpc.RPC2") (lit "top_packages") with
  | Some view =>
      fst (view VNone request w)
      = Raise (RaisedFault (XMLRPCWrappedError (RuntimeError
          (lit "This API has been removed. Use BigQuery instead. See https://warehouse.pypa.io/api-reference/xml-rpc.html#deprecated-methods for more information."))))
  | None => False
  end.
Proof.
  intros RL request w.
  destruct (@deprecated_methods_always_fault RL Fixtures.strict_validator
              Fixtures.plain_repr Fixtures.sql_functions)
    as (_ & _ & _ & _ & _ & Hview & _).
  destruct (Hview (lit "top_packages") top_packages_handler (lit "xmlrpc.RPC2"))
    as (view & Hfind & _ & Hrun).
  - right. left. reflexivity.
  - left. reflexivity.
  - rewrite Hfind. apply (Hrun VNone request w); reflexivity.
Defined.

(** C7 as stated fails through the gateway: [search] called with a number
    for [spec], and [package_data] called without arguments, are answered
    by the validation with the invalid-parameters fault, not by the
    handler with the wrapped error. *)
Lemma deprecated_call_with_bad_arguments_is_invalid_params :
  let RL := Fixtures.fixed_window 10 None in
  let registry :=
    @registrations RL Fixtures.strict_validator Fixtures.plain_repr
      Fixtures.sql_functions in
  let w := Fixtures.a_world RL [] Catalog.a_catalog in
  match find_view registry (lit "xmlrpc.pypi") (lit "search"),
        find_view registry (lit "xmlrpc.pypi") (lit "package_data") with
  | Some search_view, Some package_data_view =>
      fst (search_view VNone (Fixtures.a_request "203.0.113.7" [VInt 5]) w)
      = Raise (RaisedFault (XMLRPCInvalidParamTypes
                 (lit "('spec',): value is not a valid dict")))
      /\ fst (package_data_view VNone (Fixtures.a_request "203.0.113.7" []) w)
         = Raise (RaisedFault (XMLRPCInvalidParamTypes
                    (lit "('package_name',): field required; ('version',): field required")))
      /\ (forall e : Exception,
            fst (search_view VNone (Fixtures.a_request "203.0.113.7" [VInt 5]) w)
            <> Raise (RaisedFault (XMLRPCWrappedError e)))
      /\ (forall e : Exception,
            fst (package_data_view VNone (Fixtures.a_request "203.0.113.7" []) w)
            <> Raise (RaisedFault (XMLRPCWrappedError e)))
  | _, _ => False
  end.
Proof.
  intros RL registry w.
  set (search_view :=
         @submit_xmlrpc_metrics RL (lit "search")
           (ratelimit (@TypedMapplyViewMapper RL Fixtures.strict_validator
                         Fixtures.plain_repr search_handler))).
  set (package_data_view :=
         @submit_xmlrpc_metrics RL (lit "package_data")
           (ratelimit (@TypedMapplyViewMapper RL Fixtures.strict_validator
                         Fixtures.plain_repr package_data_handler))).
  assert (H1 : find_view registry (lit "xmlrpc.pypi") (lit "search") = Some search_view)
    by reflexivity.
  assert (H2 : find_view registry (lit "xmlrpc.pypi") (lit "package_data")
               = Some package_data_view)
    by reflexivity.
  rewrite H1, H2.
  assert (E1 : fst (search_view VNone (Fixtures.a_request "203.0.113.7" [VInt 5]) w)
               = Raise (RaisedFault (XMLRPCInvalidParamTypes
                          (lit "('spec',): value is not a valid dict"))))
    by (vm_compute; reflexivity).
  assert (E2 : fst (package_data_view VNone (Fixtures.a_request "203.0.113.7" []) w)
               = Raise (RaisedFault (XMLRPCInvalidParamTypes
                          (lit "('package_name',): field required; ('version',): field required"))))
    by (vm_compute; reflexivity).
  split; [exact E1|]. split; [exact E2|].
  split; intros e He; [rewrite E1 in He|rewrite E2 in He]; discriminate.
Qed.

(** ** Cache tags *)

Section CacheFacts.

Context {RL : IRateLimiter} {PD : Pydantic} {PB : Builtins}.

Example canonicalize_examples :
  canonicalize_name (lit "Foo-Bar") = lit "foo-bar"
  /\ canonicalize_name (lit "foo_bar") = lit "foo-bar"
  /\ canonicalize_name (lit "Zope..__--Interface") = lit "zope-interface".
Proof. repeat split. Qed.

Lemma fixed_tag_ignores_arguments (expires : Z) (template : pystr)
    (args1 args2 : list PyVal) :
  let policy := {| policy_ttl := expires; tag_template := template;
                   tag_source := FixedTag |} in
  resolveTag policy args1 = resolveTag policy args2.
Proof. reflexivity. Qed.

(** C8: a method registered through [xmlrpc_cache_all_projects] resolves,
    whatever the arguments of the call, to the tag "all-projects" with a TTL
    of one hour; a method registered through [xmlrpc_cache_by_project]
    resolves to "project/" followed by the canonical form of its first
    argument with a TTL of 48 hours; "Foo-Bar" and "foo_bar" have the same
    canonical form and so the same tag. *)
Theorem cache_tags_of_the_two_policies :
  (forall (method : pystr) (args : list PyVal),
     cache_tag_of_call (update_defaults (cache_all_projects_options method)) args
     = Some {| tag := lit "all-projects"; ttl := 3600 |})
  /\ (forall (method a : pystr) (rest : list PyVal),
        cache_tag_of_call (update_defaults (cache_by_project_options method))
                          (VStr a :: rest)
        = Some {| tag := lit "project/" ++ canonicalize_name a; ttl := 172800 |})
  /\ (forall (method : pystr) (rest1 rest2 : list PyVal),
        cache_tag_of_call (update_defaults (cache_by_project_options method))
                          (VStr (lit "Foo-Bar") :: rest1)
        = cache_tag_of_call (update_defaults (cache_by_project_options method))
                            (VStr (lit "foo_bar") :: rest2)
        /\ cache_tag_of_call (update_defaults (cache_by_project_options method))
                             (VStr (lit "foo_bar") :: rest2)
           = Some {| tag := lit "project/foo-bar"; ttl := 172800 |}).
Proof.
  split; [reflexivity|]. split.
  - intros method a rest.
    change (cache_tag_of_call (update_defaults (cache_by_project_options method))
              (VStr a :: rest))
      with (Some {| tag := lit "project/" ++ canonicalize_name a ++ []; ttl := 172800 |}).
    now rewrite app_nil_r.
  - intros method rest1 rest2. split; reflexivity.
Qed.

End CacheFacts.

(** ** The changelog queries *)

Section OrderFacts.

Lemma insert_by_id_In (e x : JournalEntry) (l : list JournalEntry) :
  In x (insert_by_id e l) <-> x = e \/ In x l.
Proof.
  induction l as [|y l IH]; simpl.
  - intuition.
  - destruct (id e <=? id y)%Z; simpl; [intuition|].
    rewrite IH. intuition.
Qed.

Lemma insert_by_id_sorted (e : JournalEntry) (l : list JournalEntry) :
  StronglySorted id_le l -> StronglySorted id_le (insert_by_id e l).
Proof.
  induction 1 as [|y l Hsorted IH Hall]; simpl.
  - repeat constructor.
  - destruct (id e <=? id y)%Z eqn:E.
    + apply Z.leb_le in E. constructor; [now constructor|].
      constructor; [exact E|].
      eapply Forall_impl; [|exact Hall].
      intros z Hz. unfold id_le in *. lia.
    + apply Z.leb_gt in E. constructor; [exact IH|].
      apply Forall_forall. intros z Hz.
      apply insert_by_id_In in Hz as [->|Hz].
      * unfold id_le. lia.
      * revert z Hz. now apply Forall_forall.
Qed.

Lemma insert_by_id_perm (e : JournalEntry) (l : list JournalEntry) :
  Permutation (e :: l) (insert_by_id e l).
Proof.
  induction l as [|y l IH]; simpl; [reflexivity|].
  destruct (id e <=? id y)%Z; [reflexivity|].
  rewrite perm_swap. now constructor.
Qed.

Lemma order_by_id_sorted (l : list JournalEntry) :
  StronglySorted id_le (order_by_id l).
Proof.
  induction l as [|e l IH]; simpl; [constructor|].
  now apply insert_by_id_sorted.
Qed.

(** Ordering neither drops nor repeats a row. *)
Lemma order_by_id_perm (l : list JournalEntry) : Permutation l (order_by_id l).
Proof.
  induction l as [|e l IH]; simpl; [reflexivity|].
  rewrite <- insert_by_id_perm. now constructor.
Qed.

Lemma order_by_id_In (x : JournalEntry) (l : list JournalEntry) :
  In x (order_by_id l) <-> In x l.
Proof.
  split; apply Permutation_in; [symmetry|]; apply order_by_id_perm.
Qed.

Lemma firstn_In {A} (x : A) (n : nat) (l : list A) : In x (firstn n l) -> In x l.
Proof.
  revert l; induction n as [|n IH]; intros [|y l]; simpl; try tauto.
  intros [->|H]; [now left|right; now apply IH].
Qed.

Lemma firstn_sorted (n : nat) (l : list JournalEntry) :
  StronglySorted id_le l -> StronglySorted id_le (firstn n l).
Proof.
  intros H. revert n. induction H as [|y l Hsorted IH Hall]; intros [|n]; simpl;
    try constructor; auto.
  apply Forall_forall. intros z Hz.
  apply (proj1 (Forall_forall _ _) Hall). revert Hz. apply firstn_In.
Qed.

Lemma limit_length {A} (n : N) (l : list A) :
  (Z.of_nat (List.length (limit n l)) <= Z.of_N n)%Z.
Proof.
  unfold limit. pose proof (firstn_le_length (N.to_nat n) l) as H1.
  rewrite length_firstn. lia.
Qed.

(** The rows a query keeps: those that pass the filter, in ascending order
    of [id], the first [n] of them. *)
Lemma query_rows (keep : JournalEntry -> bool) (n : N) (rows : list JournalEntry) :
  let result := limit n (order_by_id (filter keep rows)) in
  Forall (fun e => keep e = true /\ In e rows) result
  /\ StronglySorted id_le result
  /\ (Z.of_nat (List.length result) <= Z.of_N n)%Z.
Proof.
  intros result. repeat split.
  - apply Forall_forall. intros e He.
    unfold result, limit in He. apply firstn_In in He.
    apply order_by_id_In, filter_In in He. tauto.
  - apply firstn_sorted, order_by_id_sorted.
  - apply limit_length.
Qed.

End OrderFacts.

Section ChangelogFacts.

Context {RL : IRateLimiter}.

(** C9: [changelog_since_serial] returns, for every serial and every
    journal, one tuple per entry of a list of journal entries whose ids are
    all greater than the serial, in ascending order of id, at most 50000 of
    them; [changelog], for a timestamp Python can turn into a date, does the
    same for the entries submitted after that instant, and raises
    otherwise. *)
Theorem changelog_entries_filtered_ordered_capped
    (request : Request) (serial since : Z) (with_ids : bool) (w : World) :
  (exists entries : list JournalEntry,
     fst (changelog_since_serial request serial w)
     = Return (VList (map (fun e =>
                 VTuple [ opt_str (entry_name e); opt_str (entry_version e);
                          VInt (int (timestamp (submitted_date e)));
                          opt_str (Sanitizer._clean_for_xml (action e));
                          VInt (id e) ]) entries))
     /\ Forall (fun e => (serial < id e)%Z /\ In e (journals (db w))) entries
     /\ StronglySorted id_le entries
     /\ (Z.of_nat (List.length entries) <= 50000)%Z)
  /\ (if ((min_timestamp <=? since) && (since <=? max_timestamp))%Z then
        exists entries : list JournalEntry,
          fst (changelog request since with_ids w)
          = Return (VList (map (fun e =>
                      VTuple ([ opt_str (entry_name e); opt_str (entry_version e);
                                VInt (int (timestamp (submitted_date e)));
                                opt_str (action e) ]
                              ++ if with_ids then [VInt (id e)] else [])) entries))
          /\ Forall (fun e => (since * 1000000 < submitted_date e)%Z
                               /\ In e (journals (db w))) entries
          /\ StronglySorted id_le entries
          /\ (Z.of_nat (List.length entries) <= 50000)%Z
      else
        exists e : Exception,
          changelog request since with_ids w = (Raise (RaisedException e), w)).
Proof.
  split.
  - exists (entries_since_serial (db w) serial). split; [reflexivity|].
    destruct (query_rows (fun e => (serial <? id e)%Z) 50000 (journals (db w)))
      as (Hkeep & Hsorted & Hlen).
    split; [|split; assumption].
    eapply Forall_impl; [|exact Hkeep].
    intros e [He Hin]. apply Z.ltb_lt in He. now split.
  - unfold changelog, utcfromtimestamp.
    destruct ((min_timestamp <=? since) && (since <=? max_timestamp))%Z.
    + exists (entries_since (db w) (since * 1000000)%Z). split.
      * unfold bind, db_query, ret. cbn [db fst].
        destruct with_ids; cbn [fst]; [reflexivity|].
        now rewrite map_map.
      * destruct (query_rows (fun e => (since * 1000000 <? submitted_date e)%Z) 50000
                    (journals (db w))) as (Hkeep & Hsorted & Hlen).
        split; [|split; assumption].
        eapply Forall_impl; [|exact Hkeep].
        intros e [He Hin]. apply Z.ltb_lt in He. now split.
    + eexists. reflexivity.
Qed.

End ChangelogFacts.

(** On the reference journal: the entries after serial 3 come out as 4, 5
    and 7. *)
Example changelog_since_serial_example :
  map id (entries_since_serial Fixtures.a_journal 3) = [4; 5; 7]%Z
  /\ map id (entries_since Fixtures.a_journal 5000000%Z) = [5; 7]%Z.
Proof. split; reflexivity. Qed.

(** ** Lookups that find nothing *)

Section LookupFacts.

Context {RL : IRateLimiter} {SF : SqlFunctions}.

Lemma filter_none {A} (keep : A -> bool) (rows : list A) :
  (forall x, In x rows -> keep x = false) -> filter keep rows = [].
Proof.
  induction rows as [|x rows IH]; intros H; simpl; [reflexivity|].
  rewrite (H x (or_introl eq_refl)). apply IH. intros y Hy. apply H. now right.
Qed.

(** The world after one query. *)
Lemma db_query_world (q : Query) (w : World) :
  db_query q w
  = (Return (db w),
     {| limiter := limiter w; limiter_calls := limiter_calls w;
        metrics_calls := metrics_calls w; db := db w;
        db_queries := db_queries w ++ [q] |}).
Proof. reflexivity. Qed.

(** C10: when no project has the normalized name of the package,
    [package_releases] returns the empty list, with or without
    [show_hidden]; when no release has both a project of that name and the
    version, be the project known or not, [release_data] returns the empty
    mapping.  Both return normally, after their one query. *)
Theorem lookup_miss_is_not_a_fault
    (request : Request) (package_name version_ : pystr) (show_hidden : bool) (w : World) :
  ((forall p, In p (projects (db w)) ->
      normalized_name p <> normalize_pep426_name package_name) ->
   package_releases request package_name show_hidden w
   = (Return (VList []),
      {| limiter := limiter w; limiter_calls := limiter_calls w;
         metrics_calls := metrics_calls w; db := db w;
         db_queries := db_queries w ++ [QueryProject package_name] |}))
  /\ ((forall p r, In (p, r) (releases_with_project (db w)) ->
         ~ (normalized_name p = normalize_pep426_name package_name
            /\ version r = version_)) ->
      release_data request package_name version_ w
      = (Return (VDict []),
         {| limiter := limiter w; limiter_calls := limiter_calls w;
            metrics_calls := metrics_calls w; db := db w;
            db_queries := db_queries w ++ [QueryRelease package_name version_] |})).
Proof.
  split.
  - intros Hproject.
    unfold package_releases, bind, try_except_NoResultFound.
    rewrite db_query_world. cbn [db].
    rewrite filter_none; [reflexivity|].
    intros p Hp. apply pystr_eqb_neq. now apply Hproject.
  - intros Hrelease.
    unfold release_data, bind, try_except_NoResultFound.
    rewrite db_query_world. cbn [db].
    rewrite filter_none; [reflexivity|].
    intros [p r] Hpr. cbn [fst snd].
    destruct (pystr_eqb (normalized_name p) (normalize_pep426_name package_name)) eqn:E1;
      [|reflexivity].
    destruct (pystr_eqb (version r) version_) eqn:E2; [|reflexivity].
    apply pystr_eqb_eq in E1, E2. exfalso. apply (Hrelease p r Hpr). now split.
Qed.

End LookupFacts.

(** The catalogue has no project [Requests]; it has [pip], in the versions
    24.0 and 23.3 and in no version 99.0. *)
Lemma lookup_miss_is_not_a_fault_witness :
  let RL := Fixtures.fixed_window 10 None in
  let w := Fixtures.a_world RL [] Catalog.a_catalog in
  let request := Fixtures.a_request "203.0.113.7" [] in
  fst (@package_releases RL Fixtures.sql_functions request (lit "Requests") true w)
  = Return (VList [])
  /\ fst (@release_data RL Fixtures.sql_functions request (lit "pip") (lit "99.0") w)
     = Return (VDict [])
  /\ fst (@package_releases RL Fixtures.sql_functions request (lit "pip") true w)
     = Return (VList [VStr (lit "24.0"); VStr (lit "23.3")]).
Proof.
  intros RL w request.
  assert (Hproject : forall p, In p (projects (db w)) ->
            normalized_name p
            <> @normalize_pep426_name Fixtures.sql_functions (lit "Requests")).
  { intros p [<-|[<-|[<-|[]]]]; vm_compute; discriminate. }
  assert (Hrelease : forall p r, In (p, r) (releases_with_project (db w)) ->
            ~ (normalized_name p
               = @normalize_pep426_name Fixtures.sql_functions (lit "pip")
               /\ version r = lit "99.0")).
  { intros p r [Heq|[Heq|[Heq|[]]]]; injection Heq as <- <-; intros [_ H];
      vm_compute in H; discriminate. }
  split; [|split; [|reflexivity]].
  - rewrite (proj1 (@lookup_miss_is_not_a_fault RL Fixtures.sql_functions request
                      (lit "Requests") (lit "2.0") true w) Hproject).
    reflexivity.
  - rewrite (proj2 (@lookup_miss_is_not_a_fault RL Fixtures.sql_functions request
                      (lit "pip") (lit "99.0") true w) Hrelease).
    reflexivity.
Defined.

(** * Further properties of the module *)

(** ** What the sanitizer lets through *)

Section SanitizerOutput.

Import Sanitizer.

Lemma printable_is_legal (c : N) :
  (32 <= c < 127)%N -> _illegal_xml_chars_re c = false.
Proof.
  intros Hc. unfold _illegal_xml_chars_re, _illegal_ranges. cbn [existsb fst snd].
  repeat (apply orb_false_intro); try reflexivity;
    apply andb_false_iff;
    first [ left; apply N.leb_gt; lia | right; apply N.leb_gt; lia ].
Qed.

Lemma digits_are_digits (d : Decimal.uint) :
  Forall (fun c => (48 <= c <= 57)%N) (digits d).
Proof.
  induction d; cbn [digits]; constructor; auto; lia.
Qed.

Lemma filter_all {A} (keep : A -> bool) (l : list A) :
  Forall (fun x => keep x = true) l -> filter keep l = l.
Proof.
  induction 1 as [|x l Hx _ IH]; simpl; [reflexivity|].
  now rewrite Hx, IH.
Qed.

Lemma reference_is_kept (c : N) :
  re_sub_empty (lit "&#" ++ str_of_N c ++ lit ";") = lit "&#" ++ str_of_N c ++ lit ";".
Proof.
  apply filter_all. apply Forall_app; split; [|apply Forall_app; split].
  - repeat constructor.
  - eapply Forall_impl; [|apply digits_are_digits].
    intros d Hd. cbv beta in *. rewrite printable_is_legal; [reflexivity|lia].
  - repeat constructor.
Qed.

Lemma cleaned_unfold (s : pystr) : cleaned s = re_sub_empty (encode_ascii s).
Proof. destruct s; reflexivity. Qed.

Lemma cleaned_is_safe (s : pystr) : Forall xml_safe (re_sub_empty (encode_ascii s)).
Proof.
  apply Forall_forall. intros c Hc. split.
  - revert c Hc. apply Forall_forall, re_sub_empty_ascii, encode_ascii_is_ascii.
  - apply filter_In in Hc as [_ Hc]. now apply negb_true_iff in Hc.
Qed.

Lemma safe_text_is_kept (s : pystr) :
  Forall xml_safe s -> re_sub_empty (encode_ascii s) = s.
Proof.
  intros Hs. rewrite encode_ascii_fixed.
  - apply filter_all. eapply Forall_impl; [|exact Hs].
    intros c [_ Hc]. now rewrite Hc.
  - eapply Forall_impl; [|exact Hs]. now intros c [Hc _].
Qed.

(** Whatever [_clean_for_xml] returns as a text consists of ASCII code
    points that the pattern of illegal characters does not match. *)
Theorem clean_for_xml_output_is_safe (data : option pystr) :
  match _clean_for_xml data with
  | Some result => Forall xml_safe result
  | None => data = None
  end.
Proof.
  destruct data as [[|c s]|]; try reflexivity.
  - constructor.
  - apply cleaned_is_safe.
Qed.

(** The texts [_clean_for_xml] returns unchanged are exactly the texts of
    safe code points. *)
Theorem clean_for_xml_fixed_points (s : pystr) :
  _clean_for_xml (Some s) = Some s <-> Forall xml_safe s.
Proof.
  split.
  - intros H. destruct s as [|c s]; [constructor|].
    change (_clean_for_xml (Some (c :: s)))
      with (Some (re_sub_empty (encode_ascii (c :: s)))) in H.
    injection H as H. rewrite <- H. exact (cleaned_is_safe (c :: s)).
  - intros H. destruct s as [|c s]; [reflexivity|].
    unfold _clean_for_xml. now rewrite (safe_text_is_kept H).
Qed.

(** A code point outside ASCII is never dropped, in no context and whether
    or not the pattern lists it: it comes out as its decimal character
    reference, between what the sanitizer makes of the text before it and of
    the text after it. *)
Theorem non_ascii_becomes_a_reference (before after : pystr) (c : N) :
  (128 <= c)%N ->
  _clean_for_xml (Some (before ++ c :: after))
  = Some (cleaned before ++ lit "&#" ++ str_of_N c ++ lit ";" ++ cleaned after).
Proof.
  intros Hc.
  rewrite !cleaned_unfold.
  assert (Hne : exists x rest, before ++ c :: after = x :: rest).
  { destruct before; simpl; eauto. }
  destruct Hne as (x & rest & Hne). rewrite Hne.
  change (_clean_for_xml (Some (x :: rest)))
    with (Some (re_sub_empty (encode_ascii (x :: rest)))).
  rewrite <- Hne. f_equal.
  unfold encode_ascii. rewrite flat_map_app. cbn [flat_map].
  unfold re_sub_empty at 1. rewrite !filter_app.
  fold (re_sub_empty (flat_map xmlcharrefreplace before)).
  fold (re_sub_empty (flat_map xmlcharrefreplace after)).
  fold (re_sub_empty (xmlcharrefreplace c)).
  unfold xmlcharrefreplace at 2.
  apply N.ltb_ge in Hc. rewrite Hc.
  rewrite reference_is_kept. now rewrite <- !app_assoc.
Qed.

End SanitizerOutput.

(** U+FFFE is in the ranges of the pattern, and still comes out as a
    reference. *)
Lemma non_ascii_becomes_a_reference_witness :
  Sanitizer._illegal_xml_chars_re 65534%N = true
  /\ Sanitizer._clean_for_xml (Some (lit "a" ++ 65534%N :: lit "b"))
     = Some (lit "a&#65534;b").
Proof.
  split; [reflexivity|].
  rewrite (@non_ascii_becomes_a_reference (lit "a") (lit "b") 65534%N); [reflexivity|].
  vm_compute. discriminate.
Defined.

(** ** The pipeline around a handler *)

Section PipelineFacts.

Context {RL : IRateLimiter} {PD : Pydantic} {PB : Builtins}.

Lemma mapper_keeps_metrics (h : Handler) :
  (forall request values w0,
     metrics_calls (snd (call h request values w0)) = metrics_calls w0) ->
  forall context request w,
    metrics_calls (snd (TypedMapplyViewMapper h context request w)) = metrics_calls w.
Proof.
  intros Hh context request w.
  unfold TypedMapplyViewMapper, mapply.
  destruct (validation_errors (params h) (rpc_args request) []); [|reflexivity].
  unfold super_mapply.
  destruct (List.length (params h) <? List.length (rpc_args request))%nat; [reflexivity|].
  destruct (fill_arguments _ _) as [e|vs]; [reflexivity|].
  apply Hh.
Qed.

(** Every attempt is counted: whether the caller is turned away by the rate
    limiter, the arguments are refused by the validation or the handler
    runs, a call through the pipeline of a handler that sends no metrics of
    its own adds exactly the call counter, one of the two rate limiter
    counters and the timing, in this order.  For a caller within the limit
    the outcome is the outcome of the mapped handler: the decorators do not
    touch it. *)
Theorem pipeline_counts_every_attempt
    (rpc_method : pystr) (h : Handler) (context : PyVal) (request : Request) (w : World) :
  (forall request values w0,
     metrics_calls (snd (call h request values w0)) = metrics_calls w0) ->
  let addr := remote_addr request in
  let within := fst (test addr (hit addr (limiter w))) in
  let tag := lit "rpc_method:" ++ rpc_method in
  let view := submit_xmlrpc_metrics rpc_method (ratelimit (TypedMapplyViewMapper h)) in
  metrics_calls (snd (view context request w))
  = metrics_calls w
    ++ [ Increment (lit "warehouse.xmlrpc.call") [tag];
         Increment (if within then lit "warehouse.xmlrpc.ratelimiter.hit"
                    else lit "warehouse.xmlrpc.ratelimiter.exceeded") [];
         Timed (lit "warehouse.xmlrpc.timing") [tag] ]
  /\ (within = true ->
      exists w2 : World,
        db w2 = db w /\ db_queries w2 = db_queries w
        /\ fst (view context request w) = fst (TypedMapplyViewMapper h context request w2)).
Proof.
  intros Hh addr within tag view.
  subst view. unfold submit_xmlrpc_metrics, bind, metrics_increment, metrics_timed.
  set (w1 := record_metric (Increment (lit "warehouse.xmlrpc.call") [tag]) w).
  assert (Hw1 : fst (test (remote_addr request) (hit (remote_addr request) (limiter w1)))
                = within) by reflexivity.
  destruct within eqn:E.
  - rewrite (ratelimit_admits (TypedMapplyViewMapper h) context request w1 Hw1).
    match goal with
    | |- context [TypedMapplyViewMapper h context request ?x] => set (w2 := x)
    end.
    pose proof (mapper_keeps_metrics h Hh context request w2) as Hm.
    destruct (TypedMapplyViewMapper h context request w2) as [o w3] eqn:Ev.
    cbn [fst snd record_metric metrics_calls] in *.
    split.
    + rewrite Hm. unfold w2, w1. cbn [metrics_calls record_metric].
      now rewrite <- !app_assoc.
    + intros _. exists w2. rewrite Ev. repeat split.
  - rewrite (ratelimit_rejects (TypedMapplyViewMapper h) context request w1 Hw1).
    cbn [fst snd record_metric metrics_calls].
    split; [|discriminate].
    unfold w1. cbn [metrics_calls record_metric]. now rewrite <- !app_assoc.
Qed.

(** Registering a method leaves every other method as it was found
    before, at every endpoint. *)
Theorem registration_leaves_other_methods
    (kwargs : ViewOptions) (f : Handler) (registry : Registry) (route other : pystr) :
  other <> method kwargs ->
  find_view (snd (xmlrpc_method kwargs f registry)) route other
  = find_view registry route other.
Proof.
  intros Hother.
  unfold xmlrpc_method, _xmlrpc_method. cbn [snd fst].
  rewrite <- !app_assoc. cbn [app].
  induction registry as [|r registry IH].
  - cbn [app find_view endpoint options method update_defaults].
    rewrite (pystr_eqb_neq (fun H => Hother (eq_sym H))), !andb_false_r.
    reflexivity.
  - cbn [app find_view]. now rewrite IH.
Qed.

Lemma find_view_In (registry : Registry) (route rpc_method : pystr) (view : View) :
  find_view registry route rpc_method = Some view ->
  exists r, In r registry /\ derive_view r = Some view.
Proof.
  induction registry as [|r registry IH]; intros H; [discriminate|].
  cbn [find_view] in H.
  destruct (pystr_eqb (endpoint r) route && pystr_eqb (method (options r)) rpc_method).
  - exists r. split; [now left|exact H].
  - destruct (IH H) as (r' & Hin & Hr'). exists r'. split; [now right|exact Hr'].
Qed.

End PipelineFacts.

Section RegistryFacts.

Context {RL : IRateLimiter} {PD : Pydantic} {PB : Builtins} {SF : SqlFunctions}.

(** Every view of the module stands behind the metrics and the rate
    limiter. *)
Lemma registrations_are_limited (r : Registration) :
  In r registrations ->
  derive_view r
  = Some (submit_xmlrpc_metrics (method (options r))
            (ratelimit (TypedMapplyViewMapper (handler r)))).
Proof.
  unfold registrations, xmlrpc_cache_all_projects, xmlrpc_cache_by_project,
    xmlrpc_method, _xmlrpc_method.
  cbn [snd fst app].
  intros Hin.
  repeat (destruct Hin as [<-|Hin]; [reflexivity|]).
  contradiction.
Qed.

(** A caller over the limit never reaches the database: whatever the
    endpoint, the method and the arguments, the view found in the registry
    of the module raises the too-many-requests fault, sends no query, and
    gives the same outcome for every request of that caller. *)
Theorem over_quota_never_reaches_the_database
    (route rpc_method : pystr) (view : View)
    (context : PyVal) (request : Request) (w : World) :
  find_view registrations route rpc_method = Some view ->
  fst (test (remote_addr request) (hit (remote_addr request) (limiter w))) = false ->
  db_queries (snd (view context request w)) = db_queries w
  /\ (exists message : pystr,
        fst (view context request w)
        = Raise (RaisedFault (XMLRPCWrappedError (HTTPTooManyRequests message))))
  /\ (forall request' : Request,
        remote_addr request' = remote_addr request ->
        fst (view context request' w) = fst (view context request w)).
Proof.
  intros Hfind Hover.
  destruct (find_view_In _ _ _ Hfind) as (r & Hin & Hr).
  rewrite (registrations_are_limited Hin) in Hr. injection Hr as <-.
  set (w1 := record_metric (Increment (lit "warehouse.xmlrpc.call")
                              [lit "rpc_method:" ++ method (options r)]) w).
  assert (Hrun : forall req : Request,
            remote_addr req = remote_addr request ->
            submit_xmlrpc_metrics (method (options r))
              (ratelimit (TypedMapplyViewMapper (handler r))) context req w
            = (let (o, w') := ratelimit (TypedMapplyViewMapper (handler r)) context request w1
               in (o, record_metric (Timed (lit "warehouse.xmlrpc.timing")
                                       [lit "rpc_method:" ++ method (options r)]) w'))).
  { intros req Hreq.
    assert (Hover' : fst (test (remote_addr req) (hit (remote_addr req) (limiter w1))) = false)
      by (rewrite Hreq; exact Hover).
    assert (Hover1 : fst (test (remote_addr request) (hit (remote_addr request) (limiter w1)))
                     = false) by exact Hover.
    unfold submit_xmlrpc_metrics, bind, metrics_increment, metrics_timed.
    fold w1.
    rewrite (ratelimit_rejects (TypedMapplyViewMapper (handler r)) context req w1 Hover').
    rewrite (ratelimit_rejects (TypedMapplyViewMapper (handler r)) context request w1 Hover1).
    rewrite Hreq. reflexivity. }
  assert (Hover1 : fst (test (remote_addr request) (hit (remote_addr request) (limiter w1)))
                   = false) by exact Hover.
  split; [|split].
  - rewrite (Hrun request eq_refl).
    rewrite (ratelimit_rejects (TypedMapplyViewMapper (handler r)) context request w1 Hover1).
    reflexivity.
  - rewrite (Hrun request eq_refl).
    rewrite (ratelimit_rejects (TypedMapplyViewMapper (handler r)) context request w1 Hover1).
    eexists. reflexivity.
  - intros request' Hsame. now rewrite (Hrun request' Hsame), (Hrun request eq_refl).
Qed.

End RegistryFacts.

(** [list_packages] called by a caller within a limit of ten hits. *)
Lemma pipeline_counts_every_attempt_witness :
  let RL := Fixtures.fixed_window 10 None in
  let view :=
    @submit_xmlrpc_metrics RL (lit "list_packages")
      (ratelimit (@TypedMapplyViewMapper RL Fixtures.strict_validator Fixtures.plain_repr
                    list_packages_handler)) in
  metrics_calls (snd (view VNone (Fixtures.a_request "203.0.113.7" [])
                        (Fixtures.a_world RL [] Catalog.a_catalog)))
  = [ Increment (lit "warehouse.xmlrpc.call") [lit "rpc_method:list_packages"];
      Increment (lit "warehouse.xmlrpc.ratelimiter.hit") [];
      Timed (lit "warehouse.xmlrpc.timing") [lit "rpc_method:list_packages"] ].
Proof.
  intros RL view.
  refine (proj1 (@pipeline_counts_every_attempt RL Fixtures.strict_validator
                   Fixtures.plain_repr (lit "list_packages") list_packages_handler VNone
                   (Fixtures.a_request "203.0.113.7" [])
                   (Fixtures.a_world RL [] Catalog.a_catalog) _)).
  intros request [|v values] w0; reflexivity.
Defined.

(** [search] is found as before once [top_packages] is registered. *)
Lemma registration_leaves_other_methods_witness :
  let RL := Fixtures.fixed_window 10 None in
  let PD := Fixtures.strict_validator in
  let PB := Fixtures.plain_repr in
  let registry := snd (xmlrpc_method (method_only (lit "search")) search_handler []) in
  find_view (snd (xmlrpc_method (method_only (lit "top_packages")) top_packages_handler
                    registry))
            (lit "xmlrpc.pypi") (lit "search")
  = find_view registry (lit "xmlrpc.pypi") (lit "search").
Proof.
  intros RL PD PB registry.
  apply (@registration_leaves_other_methods RL PD PB
           (method_only (lit "top_packages")) top_packages_handler registry
           (lit "xmlrpc.pypi") (lit "search")).
  vm_compute. discriminate.
Defined.

(** A caller with no quota left asks for [release_data] of a project that
    exists. *)
Lemma over_quota_never_reaches_the_database_witness :
  let RL := Fixtures.fixed_window 0 None in
  let view :=
    @submit_xmlrpc_metrics RL (lit "release_data")
      (ratelimit (@TypedMapplyViewMapper RL Fixtures.strict_validator Fixtures.plain_repr
                    (@release_data_handler RL Fixtures.sql_functions))) in
  let request := Fixtures.a_request "203.0.113.7" [VStr (lit "pip"); VStr (lit "24.0")] in
  db_queries (snd (view VNone request (Fixtures.a_world RL [] Catalog.a_catalog))) = [].
Proof.
  intros RL view request.
  refine (proj1 (@over_quota_never_reaches_the_database RL Fixtures.strict_validator
                   Fixtures.plain_repr Fixtures.sql_functions
                   (lit "xmlrpc.pypi") (lit "release_data") view VNone request
                   (Fixtures.a_world RL [] Catalog.a_catalog) _ _)); reflexivity.
Defined.

(** ** The listings *)

Section ListingFacts.

Context {RL : IRateLimiter}.

Lemma dict_set_keys (items : list (pystr * PyVal)) (k : pystr) (v : PyVal) (n : pystr) :
  In n (map fst (dict_set items k v)) <-> n = k \/ In n (map fst items).
Proof.
  induction items as [|[k0 v0] items IH]; simpl.
  - intuition.
  - destruct (pystr_eqb k0 k) eqn:E; simpl.
    + apply pystr_eqb_eq in E. subst k0. intuition.
    + rewrite IH. intuition.
Qed.

Lemma dict_set_nodup (items : list (pystr * PyVal)) (k : pystr) (v : PyVal) :
  NoDup (map fst items) -> NoDup (map fst (dict_set items k v)).
Proof.
  induction items as [|[k0 v0] items IH]; simpl; intros Hnd.
  - constructor; [intros []|constructor].
  - inversion Hnd as [|? ? Hnotin Hnd']; subst.
    destruct (pystr_eqb k0 k) eqn:E; simpl.
    + now constructor.
    + constructor; [|now apply IH].
      intros Hin. apply dict_set_keys in Hin as [->|Hin]; [|contradiction].
      now rewrite pystr_eqb_refl in E.
Qed.

Lemma dict_get_set_same (items : list (pystr * PyVal)) (k : pystr) (v : PyVal) :
  keyword_get (dict_set items k v) k = Some v.
Proof.
  induction items as [|[k0 v0] items IH]; simpl.
  - now rewrite pystr_eqb_refl.
  - destruct (pystr_eqb k0 k) eqn:E; simpl; rewrite E; [reflexivity|exact IH].
Qed.

Lemma dict_get_set_other (items : list (pystr * PyVal)) (k : pystr) (v : PyVal) (n : pystr) :
  n <> k -> keyword_get (dict_set items k v) n = keyword_get items n.
Proof.
  intros Hn. induction items as [|[k0 v0] items IH]; simpl.
  - now rewrite (pystr_eqb_neq (fun H => Hn (eq_sym H))).
  - destruct (pystr_eqb k0 k) eqn:E; simpl.
    + apply pystr_eqb_eq in E. subst k0.
      now rewrite (pystr_eqb_neq (fun H => Hn (eq_sym H))).
    + now rewrite IH.
Qed.

(** The dict comprehension, one project at a time. *)
Lemma serials_fold (ps seen : list Project) (acc : list (pystr * PyVal)) :
  NoDup (map fst acc) ->
  (forall n, In n (map fst acc) <-> In n (map name seen)) ->
  (forall n, In n (map fst acc) ->
     exists q, In q seen /\ name q = n /\ keyword_get acc n = Some (VInt (last_serial q))) ->
  let items :=
    fold_left (fun acc serial => dict_set acc (fst serial) (VInt (snd serial)))
              (map (fun p => (name p, last_serial p)) ps) acc in
  NoDup (map fst items)
  /\ (forall n, In n (map fst items) <-> In n (map name (seen ++ ps)))
  /\ (forall n, In n (map fst items) ->
        exists q, In q (seen ++ ps) /\ name q = n
                  /\ keyword_get items n = Some (VInt (last_serial q))).
Proof.
  revert seen acc. induction ps as [|p ps IH]; intros seen acc Hnd Hkeys Hget.
  - cbn [map fold_left]. rewrite app_nil_r. auto.
  - cbn [map fold_left fst snd].
    replace (seen ++ p :: ps) with ((seen ++ [p]) ++ ps) by now rewrite <- app_assoc.
    apply IH.
    + now apply dict_set_nodup.
    + intros n. rewrite dict_set_keys, map_app, in_app_iff, Hkeys. simpl. intuition.
    + intros n Hn.
      destruct (pystr_eqb n (name p)) eqn:E.
      * apply pystr_eqb_eq in E. subst n. exists p. rewrite in_app_iff. simpl.
        rewrite dict_get_set_same. auto.
      * assert (Hne : n <> name p).
        { intros ->. now rewrite pystr_eqb_refl in E. }
        apply dict_set_keys in Hn as [Hn|Hn]; [contradiction|].
        destruct (Hget n Hn) as (q & Hq & Hname & Hval).
        exists q. rewrite in_app_iff, dict_get_set_other by exact Hne. auto.
Qed.

(** [list_packages_with_serial] returns a mapping: no key twice; its keys
    are the names [list_packages] returns; and a name is mapped to the
    serial of a project of that name. *)
Theorem package_listings_agree (request : Request) (w : World) :
  exists items : list (pystr * PyVal),
    fst (list_packages_with_serial request w) = Return (VDict items)
    /\ fst (list_packages request w) = Return (VList (map VStr (map name (projects (db w)))))
    /\ NoDup (map fst items)
    /\ (forall n, In n (map fst items) <-> In n (map name (projects (db w))))
    /\ (forall p, In p (projects (db w)) ->
          exists q, In q (projects (db w)) /\ name q = name p
                    /\ keyword_get items (name p) = Some (VInt (last_serial q))).
Proof.
  destruct (@serials_fold (projects (db w)) [] [])
    as (Hnd & Hkeys & Hget).
  { constructor. }
  { intros n. simpl. tauto. }
  { intros n []. }
  eexists. split; [reflexivity|]. split; [reflexivity|].
  split; [exact Hnd|]. split; [exact Hkeys|].
  intros p Hp. apply Hget, Hkeys. now apply in_map.
Qed.

End ListingFacts.

(** ** The end of the journal *)

Section JournalFacts.

Context {RL : IRateLimiter}.

Lemma fold_max_spec (rest : list Z) (i : Z) :
  let m := fold_left Z.max rest i in
  (m = i \/ In m rest) /\ (i <= m)%Z /\ (forall x, In x rest -> (x <= m)%Z).
Proof.
  revert i. induction rest as [|y rest IH]; intros i; cbn [fold_left].
  - repeat split; auto; try lia. intros x [].
  - destruct (IH (Z.max i y)) as (Hin & Hle & Hall).
    repeat split.
    + destruct Hin as [Hm|Hm]; [|right; now right].
      rewrite Hm. destruct (Z.max_spec i y) as [[_ ->]|[_ ->]]; [right; now left|now left].
    + lia.
    + intros x [<-|Hx]; [lia|now apply Hall].
Qed.

Lemma last_serial_bounds (request : Request) (w : World) (m : Z) :
  fst (changelog_last_serial request w) = Return (VInt m) ->
  (exists e, In e (journals (db w)) /\ id e = m)
  /\ (forall e, In e (journals (db w)) -> (id e <= m)%Z).
Proof.
  unfold changelog_last_serial, bind, db_query, ret. cbn [db fst].
  destruct (journals (db w)) as [|e0 es]; cbn [map fst]; [discriminate|].
  intros H. injection H as <-.
  destruct (fold_max_spec (map id es) (id e0)) as (Hin & Hle & Hall).
  split.
  - destruct Hin as [Hm|Hm].
    + exists e0. split; [now left|now rewrite Hm].
    + apply in_map_iff in Hm as (e & He & Hine). exists e. split; [now right|exact He].
  - intros e [<-|He]; [exact Hle|]. apply Hall. now apply in_map.
Qed.

(** [changelog_last_serial] returns [None] on an empty journal, and
    otherwise the id of an entry that no entry exceeds. *)
Theorem changelog_last_serial_is_the_greatest_id (request : Request) (w : World) :
  match journals (db w) with
  | [] => fst (changelog_last_serial request w) = Return VNone
  | _ :: _ =>
      exists m : Z,
        fst (changelog_last_serial request w) = Return (VInt m)
        /\ (exists e, In e (journals (db w)) /\ id e = m)
        /\ (forall e, In e (journals (db w)) -> (id e <= m)%Z)
  end.
Proof.
  destruct (journals (db w)) as [|e0 es] eqn:Ej.
  - unfold changelog_last_serial, bind, db_query, ret. cbn [db fst]. now rewrite Ej.
  - exists (fold_left Z.max (map id es) (id e0)).
    assert (Hret : fst (changelog_last_serial request w)
                   = Return (VInt (fold_left Z.max (map id es) (id e0)))).
    { unfold changelog_last_serial, bind, db_query, ret. cbn [db fst]. now rewrite Ej. }
    split; [exact Hret|].
    rewrite <- Ej. exact (@last_serial_bounds request w _ Hret).
Qed.

(** Asking [changelog_since_serial] for what came after the serial
    [changelog_last_serial] has just returned gives the empty list. *)
Theorem nothing_after_the_last_serial (request : Request) (w : World) (m : Z) :
  fst (changelog_last_serial request w) = Return (VInt m) ->
  fst (changelog_since_serial request m (snd (changelog_last_serial request w)))
  = Return (VList []).
Proof.
  intros Hlast.
  destruct (@last_serial_bounds request w m Hlast) as [_ Hall].
  unfold changelog_since_serial, bind, db_query, ret. cbn [db fst snd].
  unfold changelog_last_serial at 1, bind, db_query, ret. cbn [db fst snd].
  unfold entries_since_serial.
  rewrite filter_none; [reflexivity|].
  intros e He. apply Z.ltb_ge. now apply Hall.
Qed.

Lemma sorted_app_le (l1 l2 : list JournalEntry) :
  StronglySorted id_le (l1 ++ l2) ->
  forall x y, In x l1 -> In y l2 -> (id x <= id y)%Z.
Proof.
  induction l1 as [|a l1 IH]; intros Hs x y Hx Hy; [contradiction|].
  inversion Hs as [|? ? Hs' Hall]; subst.
  destruct Hx as [->|Hx].
  - apply (proj1 (Forall_forall _ _) Hall). apply in_app_iff. now right.
  - now apply IH.
Qed.

Lemma skipn_nonempty_firstn_full {A} (n : nat) (l : list A) (x : A) :
  In x (skipn n l) -> List.length (firstn n l) = n.
Proof.
  intros Hx. rewrite length_firstn.
  assert (Hlen : (0 < List.length (skipn n l))%nat).
  { destruct (skipn n l); [contradiction|simpl; lia]. }
  rewrite length_skipn in Hlen. lia.
Qed.

(** [changelog_since_serial] returns the entries with the lowest ids after
    the serial: an entry after the serial that is left out is left out
    because 50000 entries with ids no greater than its own were returned. *)
Theorem changelog_since_serial_returns_the_lowest_ids
    (request : Request) (serial : Z) (w : World) :
  exists entries : list JournalEntry,
    fst (changelog_since_serial request serial w)
    = Return (VList (map (fun e =>
                VTuple [ opt_str (entry_name e); opt_str (entry_version e);
                         VInt (int (timestamp (submitted_date e)));
                         opt_str (Sanitizer._clean_for_xml (action e));
                         VInt (id e) ]) entries))
    /\ forall e, In e (journals (db w)) -> (serial < id e)%Z ->
         In e entries
         \/ (Z.of_nat (List.length entries) = 50000%Z
             /\ forall r, In r entries -> (id r <= id e)%Z).
Proof.
  exists (entries_since_serial (db w) serial). split; [reflexivity|].
  intros e He Hafter.
  unfold entries_since_serial, limit.
  set (sorted := order_by_id (filter (fun e0 => (serial <? id e0)%Z) (journals (db w)))).
  assert (Hin : In e sorted).
  { apply order_by_id_In, filter_In. split; [exact He|now apply Z.ltb_lt]. }
  rewrite <- (firstn_skipn (N.to_nat 50000) sorted) in Hin.
  apply in_app_iff in Hin as [Hin|Hin]; [now left|right].
  split.
  - rewrite (@skipn_nonempty_firstn_full _ _ _ _ Hin). reflexivity.
  - intros r Hr. apply (@sorted_app_le (firstn (N.to_nat 50000) sorted)
                          (skipn (N.to_nat 50000) sorted)); auto.
    rewrite firstn_skipn. apply order_by_id_sorted.
Qed.

Lemma quot_lower_bound (t since : Z) :
  (since * 1000000 < t)%Z -> (since <= Z.quot t 1000000)%Z.
Proof.
  intros H.
  destruct (Z.le_gt_cases 0 t) as [Hpos|Hneg].
  - rewrite Z.quot_div_nonneg by lia.
    apply Z.div_le_lower_bound; lia.
  - replace t with (- (- t))%Z by lia.
    rewrite Z.quot_opp_l by lia.
    rewrite Z.quot_div_nonneg by lia.
    assert ((- t) / 1000000 <= - since)%Z; [|lia].
    apply Z.div_le_upper_bound; lia.
Qed.

(** The timestamp of every tuple [changelog] returns is [since] or later;
    an entry submitted within the second of [since] is returned with
    [since] itself. *)
Theorem changelog_timestamps_not_before_since
    (request : Request) (since : Z) (with_ids : bool) (w : World) (rows : list PyVal) :
  fst (changelog request since with_ids w) = Return (VList rows) ->
  Forall (fun row =>
            exists n v ts a rest,
              row = VTuple (n :: v :: VInt ts :: a :: rest) /\ (since <= ts)%Z)
         rows.
Proof.
  unfold changelog, utcfromtimestamp.
  destruct ((min_timestamp <=? since) && (since <=? max_timestamp))%Z; [|discriminate].
  unfold bind, db_query, ret. cbn [db fst].
  destruct (query_rows (fun e => (since * 1000000 <? submitted_date e)%Z) 50000
              (journals (db w))) as (Hkeep & _ & _).
  fold (entries_since (db w) (since * 1000000)%Z) in Hkeep.
  assert (Hts : forall e, In e (entries_since (db w) (since * 1000000)%Z) ->
                  (since <= int (timestamp (submitted_date e)))%Z).
  { intros e He. apply (proj1 (Forall_forall _ _) Hkeep) in He as [He _].
    apply Z.ltb_lt in He. now apply quot_lower_bound. }
  destruct with_ids; cbn [fst]; intros H; injection H as <-;
    apply Forall_forall; intros row Hrow.
  - apply in_map_iff in Hrow as (e & <- & He).
    do 5 eexists. split; [reflexivity|now apply Hts].
  - rewrite map_map in Hrow. apply in_map_iff in Hrow as (e & <- & He).
    do 5 eexists. split; [reflexivity|now apply Hts].
Qed.

End JournalFacts.

(** The catalogue's journal ends at serial 30. *)
Lemma nothing_after_the_last_serial_witness :
  let RL := Fixtures.fixed_window 10 None in
  let request := Fixtures.a_request "203.0.113.7" [] in
  let w := Fixtures.a_world RL [] Catalog.a_catalog in
  fst (changelog_last_serial request w) = Return (VInt 30)
  /\ fst (changelog_since_serial request 30 (snd (changelog_last_serial request w)))
     = Return (VList []).
Proof.
  intros RL request w.
  assert (Hlast : fst (changelog_last_serial request w) = Return (VInt 30)) by reflexivity.
  split; [exact Hlast|].
  exact (@nothing_after_the_last_serial RL request w 30%Z Hlast).
Defined.

(** The entry submitted half a second after 1700000000 is returned with the
    timestamp 1700000000. *)
Lemma changelog_timestamps_not_before_since_witness :
  let RL := Fixtures.fixed_window 10 None in
  let request := Fixtures.a_request "203.0.113.7" [] in
  let w := Fixtures.a_world RL [] Catalog.a_catalog in
  let rows := [ VTuple [ VStr (lit "pip"); VNone; VInt 1700000000;
                         VStr (lit "create"); VInt 30 ] ] in
  fst (changelog request 1700000000 true w) = Return (VList rows)
  /\ Forall (fun row =>
               exists n v ts a rest,
                 row = VTuple (n :: v :: VInt ts :: a :: rest) /\ (1700000000 <= ts)%Z)
            rows.
Proof.
  intros RL request w rows.
  assert (Hrows : fst (changelog request 1700000000 true w) = Return (VList rows))
    by reflexivity.
  split; [exact Hrows|].
  exact (@changelog_timestamps_not_before_since RL request 1700000000%Z true w rows Hrows).
Defined.

(** ** Lookups by name *)

Section NameFacts.

Context {RL : IRateLimiter} {SF : SqlFunctions}.

(** Two spellings of a package name with the same normalized form are the
    same name to [package_releases] and to [release_data]: both give the
    same outcome. *)
Theorem lookups_depend_on_the_normalized_name
    (request : Request) (name1 name2 version_ : pystr) (show_hidden : bool) (w : World) :
  normalize_pep426_name name1 = normalize_pep426_name name2 ->
  fst (package_releases request name1 show_hidden w)
  = fst (package_releases request name2 show_hidden w)
  /\ fst (release_data request name1 version_ w)
     = fst (release_data request name2 version_ w).
Proof.
  intros Hsame. split.
  - unfold package_releases, bind, try_except_NoResultFound.
    rewrite !db_query_world. cbn [db]. rewrite Hsame.
    destruct (filter _ (projects (db w))) as [|p [|p' rest]]; try reflexivity.
    unfold one, ret. cbn [fst snd].
    destruct show_hidden; [reflexivity|]. destruct (latest_version p); reflexivity.
  - unfold release_data, bind, try_except_NoResultFound.
    rewrite !db_query_world. cbn [db]. rewrite Hsame.
    destruct (filter _ (releases_with_project (db w))) as [|row [|row' rest]]; reflexivity.
Qed.

Lemma clean_value_is_safe (o : option pystr) :
  safe_value (opt_str (Sanitizer._clean_for_xml o)).
Proof.
  destruct o as [[|c s]|]; cbn [Sanitizer._clean_for_xml opt_str safe_value]; auto.
  apply cleaned_is_safe.
Qed.

(** In the mapping [release_data] returns for a release, the value of each
    sanitized field is [None] or a text of safe code points, and so is each
    element of [project_url]; the mapping of a miss has no fields. *)
Theorem release_data_fields_are_sanitized
    (request : Request) (package_name version_ : pystr) (w : World)
    (items : list (pystr * PyVal)) :
  fst (release_data request package_name version_ w) = Return (VDict items) ->
  (forall key, In key sanitized_fields ->
     match keyword_get items key with
     | Some value => safe_value value
     | None => items = []
     end)
  /\ match keyword_get items (lit "project_url") with
     | Some (VList urls) => Forall safe_value urls
     | Some _ => False
     | None => items = []
     end.
Proof.
  unfold release_data, bind, try_except_NoResultFound.
  rewrite db_query_world. cbn [db].
  destruct (filter _ (releases_with_project (db w))) as [|[project release] [|row' rest]].
  - intros H. injection H as <-. split; [intros key _|]; reflexivity.
  - intros H. injection H as <-. split.
    + intros key Hkey. cbn [fst snd].
      repeat (destruct Hkey as [<-|Hkey];
              [first [ exact (clean_value_is_safe (documentation_url project))
                     | exact (clean_value_is_safe (home_page release))
                     | exact (clean_value_is_safe (download_url release))
                     | exact (clean_value_is_safe (author release))
                     | exact (clean_value_is_safe (author_email release))
                     | exact (clean_value_is_safe (maintainer release))
                     | exact (clean_value_is_safe (maintainer_email release))
                     | exact (clean_value_is_safe (summary release))
                     | exact (clean_value_is_safe (description_raw release))
                     | exact (clean_value_is_safe (license release))
                     | exact (clean_value_is_safe (keywords release)) ]|]).
      contradiction.
    + cbn [fst snd].
      change (Forall safe_value
                (map (fun lu => opt_str (Sanitizer._clean_for_xml
                                           (Some (fst lu ++ lit ", " ++ snd lu))))
                     (project_urls release))).
      apply Forall_forall. intros v Hv.
      apply in_map_iff in Hv as (lu & <- & _). apply clean_value_is_safe.
  - discriminate.
Qed.

End NameFacts.

(** The database function of the reference services sends [Foo-Bar] and
    [foo_bar] to the same name; the catalogue knows the project as
    [Foo_Bar]. *)
Lemma lookups_depend_on_the_normalized_name_witness :
  let RL := Fixtures.fixed_window 10 None in
  let request := Fixtures.a_request "203.0.113.7" [] in
  let w := Fixtures.a_world RL [] Catalog.a_catalog in
  fst (@package_releases RL Fixtures.sql_functions request (lit "Foo-Bar") true w)
  = fst (@package_releases RL Fixtures.sql_functions request (lit "foo_bar") true w)
  /\ fst (@package_releases RL Fixtures.sql_functions request (lit "foo_bar") true w)
     = Return (VList [VStr (lit "1.0")]).
Proof.
  intros RL request w. split; [|reflexivity].
  refine (proj1 (@lookups_depend_on_the_normalized_name RL Fixtures.sql_functions request
                   (lit "Foo-Bar") (lit "foo_bar") (lit "1.0") true w _)).
  reflexivity.
Defined.

(** The summary of pip 24.0 ends in an ellipsis and its author in a NUL:
    the one comes out as a reference, the other is dropped. *)
Lemma release_data_fields_are_sanitized_witness :
  let RL := Fixtures.fixed_window 10 None in
  let request := Fixtures.a_request "203.0.113.7" [] in
  let w := Fixtures.a_world RL [] Catalog.a_catalog in
  exists items : list (pystr * PyVal),
    fst (@release_data RL Fixtures.sql_functions request (lit "pip") (lit "24.0") w)
    = Return (VDict items)
    /\ keyword_get items (lit "summary") = Some (VStr (lit "Installs packages&#8230;"))
    /\ keyword_get items (lit "author") = Some (VStr (lit "The pip developers"))
    /\ match keyword_get items (lit "summary") with
       | Some value => safe_value value
       | None => items = []
       end.
Proof.
  intros RL request w.
  destruct (fst (@release_data RL Fixtures.sql_functions request (lit "pip") (lit "24.0") w))
    as [[| | | | | |items]|r] eqn:E; try (vm_compute in E; discriminate).
  assert (Hin : In (lit "summary") sanitized_fields) by (do 7 right; left; reflexivity).
  pose proof (proj1 (@release_data_fields_are_sanitized RL Fixtures.sql_functions request
                       (lit "pip") (lit "24.0") w items E) (lit "summary") Hin) as Hsafe.
  exists items. split; [reflexivity|].
  vm_compute in E. injection E as E. subst items.
  split; [reflexivity|]. split; [reflexivity|]. exact Hsafe.
Defined.

(** ** Sanitizing joined texts *)

(** Sanitizing a concatenation gives the concatenation of the sanitized
    parts: [release_data] may clean ["label, url"] as a whole or part by
    part. *)
Theorem cleaned_concatenation (a b : pystr) :
  cleaned (a ++ b) = cleaned a ++ cleaned b.
Proof.
  rewrite !cleaned_unfold.
  unfold Sanitizer.encode_ascii, Sanitizer.re_sub_empty.
  now rewrite flat_map_app, filter_app.
Qed.
